(** * EDA-Mobile-Network-Experience: the cleaning, scaling and regression
      stages of [main.py]

    The script is a straight pipeline over one pandas DataFrame:
    load, clean (lines 30-40), plot, min-max scale (lines 116-117),
    split / fit / predict / evaluate (lines 132-158).  The plots only read
    the table and are left out.

    Modelling conventions.
    - A DataFrame is a list of rows in row order; each row carries its index
      label.  Columns are typed as the script uses them: [rating],
      [latitude], [longitude] are numeric, the five columns of [str_cols]
      hold strings.  A missing cell (NaN) is [None].
    - float64 values are exact rationals ([Q]), compared with [==];
      rounding is not part of this model.  Where rounding decides, the
      scaler's formula is also evaluated in binary64 ([Binary64]).
    - Python strings are restricted to ASCII code points (below 128); the
      Unicode case and white-space tables are not modelled, and statements
      about [strip] and [title] are made for ASCII strings.
    - pandas and scikit-learn are not part of the repository; their
      functions are written after their documented behaviour, one Rocq
      definition per library call of the script. *)

From Stdlib Require Import String Ascii Bool Arith ZArith QArith Qminmax
  Qround Lia Lqa List Permutation.
From Stdlib Require PrimFloat.
Import ListNotations.

Local Open Scope bool_scope.

(* ------------------------------------------------------------------ *)
(** * Python [str.strip] and [str.title] on ASCII strings              *)
(* ------------------------------------------------------------------ *)

Module PyStr.

Local Open Scope N_scope.

Definition code (c : ascii) : N := N_of_ascii c.

(** [Py_UNICODE_ISSPACE] below 128: TAB..CR, FS..US and the blank. *)
Definition isspace (c : ascii) : bool :=
  ((9 <=? code c) && (code c <=? 13)) || ((28 <=? code c) && (code c <=? 32)).

Definition isupper (c : ascii) : bool := (65 <=? code c) && (code c <=? 90).
Definition islower (c : ascii) : bool := (97 <=? code c) && (code c <=? 122).
Definition iscased (c : ascii) : bool := isupper c || islower c.

Definition upper (c : ascii) : ascii :=
  if islower c then ascii_of_N (code c - 32) else c.
Definition lower (c : ascii) : ascii :=
  if isupper c then ascii_of_N (code c + 32) else c.

(** [s.lstrip()]: drop the leading white space. *)
Fixpoint lstrip (s : string) : string :=
  match s with
  | EmptyString => EmptyString
  | String c s' => if isspace c then lstrip s' else s
  end.

(** [s.rstrip()]: drop the trailing white space. *)
Fixpoint rstrip (s : string) : string :=
  match s with
  | EmptyString => EmptyString
  | String c s' =>
      match rstrip s' with
      | EmptyString => if isspace c then EmptyString else String c EmptyString
      | r => String c r
      end
  end.

(** [s.strip()] with no argument. *)
Definition strip (s : string) : string := rstrip (lstrip s).

(** [s.title()]: CPython walks the string once; a character that follows
    a cased character is lower-cased, any other is title-cased (upper-cased
    in ASCII). *)
Fixpoint title_from (previous_is_cased : bool) (s : string) : string :=
  match s with
  | EmptyString => EmptyString
  | String c s' =>
      String (if previous_is_cased then lower c else upper c)
             (title_from (iscased c) s')
  end.

Definition title (s : string) : string := title_from false s.

(** ** Predicates the properties are stated with *)

Definition first_char (s : string) : option ascii :=
  match s with EmptyString => None | String c _ => Some c end.

Fixpoint last_char (s : string) : option ascii :=
  match s with
  | EmptyString => None
  | String c EmptyString => Some c
  | String _ s' => last_char s'
  end.

Definition is_space_opt (o : option ascii) : bool :=
  match o with Some c => isspace c | None => false end.

(** No white space at either end. *)
Definition trimmed (s : string) : bool :=
  negb (is_space_opt (first_char s)) && negb (is_space_opt (last_char s)).

(** Upper-case letters only at the start of a run of letters, lower-case
    letters only inside one: what [str.istitle] tests, without its extra
    demand that the string holds a letter at all. *)
Fixpoint titlecased_from (previous_is_cased : bool) (s : string) : bool :=
  match s with
  | EmptyString => true
  | String c s' =>
      (if previous_is_cased then negb (isupper c) else negb (islower c))
      && titlecased_from (iscased c) s'
  end.

Definition titlecased (s : string) : bool := titlecased_from false s.

Fixpoint has_cased (s : string) : bool :=
  match s with
  | EmptyString => false
  | String c s' => iscased c || has_cased s'
  end.

(** Python's [s.istitle()]. *)
Definition istitle (s : string) : bool := titlecased s && has_cased s.

End PyStr.

(* ------------------------------------------------------------------ *)
(** * The table                                                        *)
(* ------------------------------------------------------------------ *)

(** A cell of a column the script only carries along ([month], [year]). *)
Inductive cell : Type :=
| Missing
| Num (q : Q)
| Str (s : string).

Record row : Type := mkRow {
  label : nat;                          (* index label of the row *)
  rating : option Q;
  latitude : option Q;
  longitude : option Q;
  state_name : option string;
  operator : option string;
  network_type : option string;
  calldrop_category : option string;
  inout_travelling : option string;
  month : cell;
  year : cell
}.

Definition table : Type := list row.

(** Column projections, as [df['latitude']]. *)
Definition column {A : Type} (f : row -> A) (df : table) : list A := map f df.

Definition set_rating (v : option Q) (r : row) : row :=
  mkRow (label r) v (latitude r) (longitude r) (state_name r) (operator r)
        (network_type r) (calldrop_category r) (inout_travelling r)
        (month r) (year r).

Definition set_latitude (v : option Q) (r : row) : row :=
  mkRow (label r) (rating r) v (longitude r) (state_name r) (operator r)
        (network_type r) (calldrop_category r) (inout_travelling r)
        (month r) (year r).

Definition set_longitude (v : option Q) (r : row) : row :=
  mkRow (label r) (rating r) (latitude r) v (state_name r) (operator r)
        (network_type r) (calldrop_category r) (inout_travelling r)
        (month r) (year r).

(** Everything of a row but the three numeric columns. *)
Definition other_columns (r : row) :=
  (label r, state_name r, operator r, network_type r, calldrop_category r,
   inout_travelling r, month r, year r).

(* ------------------------------------------------------------------ *)
(** * pandas: the calls of the cleaning block                          *)
(* ------------------------------------------------------------------ *)

Module Pandas.

Local Open Scope Q_scope.

(** The sentinel of the raw data, [-1.0]. *)
Definition sentinel : Q := -1.

(** The values of a numeric column that are not NaN. *)
Fixpoint dropna (col : list (option Q)) : list Q :=
  match col with
  | [] => []
  | Some v :: col' => v :: dropna col'
  | None :: col' => dropna col'
  end.

Definition Qsum (vs : list Q) : Q := fold_right Qplus 0 vs.

(** Sum over count of a list of values; NaN for none. *)
Definition mean_of (vs : list Q) : option Q :=
  match vs with
  | [] => None
  | _ :: _ => Some (Qsum vs / inject_Z (Z.of_nat (length vs)))
  end.

(** [Series.mean()], which skips NaN. *)
Definition mean (col : list (option Q)) : option Q := mean_of (dropna col).

(** [Series.replace(-1.0, np.nan)] on one cell. *)
Definition replace_cell (v : option Q) : option Q :=
  match v with
  | Some q => if Qeq_bool q sentinel then None else Some q
  | None => None
  end.

(** Line 31: [df[['latitude','longitude']].replace(-1.0, np.nan)] written
    back into the two columns. *)
Definition replace_sentinel (df : table) : table :=
  map (fun r => set_longitude (replace_cell (longitude r))
                  (set_latitude (replace_cell (latitude r)) r)) df.

(** [fillna] of one cell with a value that may itself be NaN. *)
Definition fill_cell (value : option Q) (v : option Q) : option Q :=
  match v with
  | Some q => Some q
  | None => value
  end.

(** Line 35: [df.fillna({'latitude': lat, 'longitude': lon})]. *)
Definition fillna (lat lon : option Q) (df : table) : table :=
  map (fun r => set_longitude (fill_cell lon (longitude r))
                  (set_latitude (fill_cell lat (latitude r)) r)) df.

Definition notna {A : Type} (v : option A) : bool :=
  match v with Some _ => true | None => false end.

(** [Series.str.strip().str.title()]: NaN stays NaN. *)
Definition str_strip_title (v : option string) : option string :=
  option_map (fun s => PyStr.title (PyStr.strip s)) v.

(** Lines 38-40: the loop over [str_cols]. *)
Definition clean_strings (r : row) : row :=
  mkRow (label r) (rating r) (latitude r) (longitude r)
        (str_strip_title (state_name r))
        (str_strip_title (operator r))
        (str_strip_title (network_type r))
        (str_strip_title (calldrop_category r))
        (str_strip_title (inout_travelling r))
        (month r) (year r).

End Pandas.

(** Lines 30-40, the cleaning stage.  Both means are taken on the table
    of line 31, when the arguments of [fillna] are evaluated. *)
Definition clean (df : table) : table :=
  let df_clean := Pandas.replace_sentinel df in
  let df_clean :=
    Pandas.fillna (Pandas.mean (column latitude df_clean))
                  (Pandas.mean (column longitude df_clean)) df_clean in
  let df_clean := filter (fun r => Pandas.notna (state_name r)) df_clean in
  map Pandas.clean_strings df_clean.

(* ------------------------------------------------------------------ *)
(** * Exceptions                                                       *)
(* ------------------------------------------------------------------ *)

Inductive exn : Type := ValueError | IndexError | AttributeError.

(** A computation that returns a value or raises. *)
Inductive exc (A : Type) : Type :=
| Return (a : A)
| Raise (e : exn).

Arguments Return {A} a.
Arguments Raise {A} e.

Definition bind {A B : Type} (c : exc A) (k : A -> exc B) : exc B :=
  match c with
  | Return a => k a
  | Raise e => Raise e
  end.

Notation "x <- c ;; k" := (bind c (fun x => k))
  (at level 61, c at next level, right associativity).
Notation "' p <- c ;; k" := (bind c (fun x => let 'p := x in k))
  (at level 61, p pattern, c at next level, right associativity).

(* ------------------------------------------------------------------ *)
(** * scikit-learn: the calls of the scaling and regression blocks     *)
(* ------------------------------------------------------------------ *)

(** A two-dimensional array, one inner list per sample. *)
Definition matrix : Type := list (list (option Q)).

Module Sklearn.

Local Open Scope Q_scope.

(** NaN propagates through arithmetic. *)
Definition nan2 (f : Q -> Q -> Q) (a b : option Q) : option Q :=
  match a, b with
  | Some x, Some y => Some (f x y)
  | _, _ => None
  end.

(** [np.nanmin] and [np.nanmax] of one column; NaN when all is NaN. *)
Definition nanmin (col : list (option Q)) : option Q :=
  match Pandas.dropna col with
  | [] => None
  | v :: vs => Some (fold_left Qmin vs v)
  end.

Definition nanmax (col : list (option Q)) : option Q :=
  match Pandas.dropna col with
  | [] => None
  | v :: vs => Some (fold_left Qmax vs v)
  end.

(** Column [j] of an array. *)
Definition feature (j : nat) (X : matrix) : list (option Q) :=
  map (fun sample => nth j sample None) X.

(** The machine epsilon of float64, [np.finfo(np.float64).eps] = 2^-52. *)
Definition eps : Q := 1 # 4503599627370496.

(** [_handle_zeros_in_scale]: a feature whose range is below ten machine
    epsilons counts as constant and is scaled by 1; NaN stays NaN.
    (Releases before 1.0 compare the range with 0 instead.) *)
Definition handle_zeros_in_scale (r : option Q) : option Q :=
  match r with
  | Some q => if Qle_bool (10 * eps) q then Some q else Some 1
  | None => None
  end.

(** The fitted attributes of [MinMaxScaler()] (feature range (0, 1)),
    one entry per feature. *)
Record MinMaxScaler : Type := mkScaler {
  data_min_ : list (option Q);
  data_max_ : list (option Q);
  data_range_ : list (option Q);
  scale_ : list (option Q);
  min_ : list (option Q)
}.

Definition n_features_in_ (sc : MinMaxScaler) : nat := length (scale_ sc).

(** [MinMaxScaler.fit]: refuses an array without samples; NaN is
    disregarded. *)
Definition fit (X : matrix) : exc MinMaxScaler :=
  match X with
  | [] => Raise ValueError
  | sample :: _ =>
      let js := seq 0 (length sample) in
      let data_min := map (fun j => nanmin (feature j X)) js in
      let data_max := map (fun j => nanmax (feature j X)) js in
      let data_range :=
        map (fun '(hi, lo) => nan2 Qminus hi lo) (combine data_max data_min) in
      let scale :=
        map (fun r => nan2 Qdiv (Some (1 - 0)) (handle_zeros_in_scale r))
            data_range in
      let min :=
        map (fun '(lo, s) => nan2 Qminus (Some 0) (nan2 Qmult lo s))
            (combine data_min scale) in
      Return (mkScaler data_min data_max data_range scale min)
  end.

(** One sample through [X *= scale_; X += min_]. *)
Definition transform_sample (sc : MinMaxScaler) (sample : list (option Q))
  : list (option Q) :=
  map (fun '(x, (s, m)) => nan2 Qplus (nan2 Qmult x s) m)
      (combine sample (combine (scale_ sc) (min_ sc))).

(** [MinMaxScaler.transform]: the number of features must be the fitted
    one; NaN is kept. *)
Definition transform (sc : MinMaxScaler) (X : matrix) : exc matrix :=
  if forallb (fun sample => length sample =? n_features_in_ sc)%nat X
  then Return (map (transform_sample sc) X)
  else Raise ValueError.

Definition fit_transform (X : matrix) : exc (MinMaxScaler * matrix) :=
  sc <- fit X ;;
  X' <- transform sc X ;;
  Return (sc, X').

(** Input validation of the estimators and metrics: NaN is refused, and so
    is an array without samples. *)
Fixpoint assert_all_finite (col : list (option Q)) : exc (list Q) :=
  match col with
  | [] => Return []
  | None :: _ => Raise ValueError
  | Some v :: col' => vs <- assert_all_finite col' ;; Return (v :: vs)
  end.

Definition check_array (col : list (option Q)) : exc (list Q) :=
  match col with
  | [] => Raise ValueError
  | _ :: _ => assert_all_finite col
  end.

(** The fitted attributes of [LinearRegression()] with one feature. *)
Record LinearRegression : Type := mkModel {
  coef_ : Q;
  intercept_ : Q
}.

Definition Qmean (vs : list Q) : Q :=
  Pandas.Qsum vs / inject_Z (Z.of_nat (length vs)).

(** [LinearRegression.fit] with one feature: least squares on the centred
    data, the minimum-norm solution (slope 0) when the feature is
    constant. *)
Definition fit_linear (X y : list (option Q)) : exc LinearRegression :=
  xs <- check_array X ;;
  ys <- check_array y ;;
  if negb (length xs =? length ys)%nat then Raise ValueError
  else
    let X_offset := Qmean xs in
    let y_offset := Qmean ys in
    let sxx := Pandas.Qsum (map (fun x => (x - X_offset) * (x - X_offset)) xs) in
    let sxy :=
      Pandas.Qsum (map (fun '(x, v) => (x - X_offset) * (v - y_offset))
                       (combine xs ys)) in
    let coef := if Qeq_bool sxx 0 then 0 else sxy / sxx in
    Return (mkModel coef (y_offset - X_offset * coef)).

(** [LinearRegression.predict]. *)
Definition predict (model : LinearRegression) (X : list (option Q))
  : exc (list Q) :=
  xs <- check_array X ;;
  Return (map (fun x => x * coef_ model + intercept_ model) xs).

(** [mean_squared_error(y_true, y_pred)]. *)
Definition mean_squared_error (y_true : list (option Q)) (y_pred : list Q)
  : exc Q :=
  ys <- check_array y_true ;;
  if negb (length ys =? length y_pred)%nat then Raise ValueError
  else Return (Qmean (map (fun '(a, b) => (a - b) * (a - b))
                          (combine ys y_pred))).

(** [_safe_indexing]: the entries at the given positions, in that order. *)
Fixpoint safe_indexing {A : Type} (a : list A) (indices : list nat)
  : exc (list A) :=
  match indices with
  | [] => Return []
  | i :: indices' =>
      match nth_error a i with
      | None => Raise IndexError
      | Some v => vs <- safe_indexing a indices' ;; Return (v :: vs)
      end
  end.

(** [_validate_shuffle_split] for a float [test_size] and no
    [train_size]: [(n_train, n_test)]. *)
Definition validate_shuffle_split (n_samples : nat) (test_size : Q)
  : exc (nat * nat) :=
  if Qle_bool test_size 0 || Qle_bool 1 test_size then Raise ValueError
  else
    let n_test :=
      Z.to_nat (Qceiling (test_size * inject_Z (Z.of_nat n_samples))) in
    let n_train := (n_samples - n_test)%nat in
    if (n_train =? 0)%nat then Raise ValueError
    else Return (n_train, n_test).

Section Split.

(** numpy's generator: [RandomState(seed)] and [rng.permutation(n)].
    Only its interface is used. *)
Variable RandomState : Type.
Variable seeded : Z -> RandomState.
Variable permutation : RandomState -> nat -> list nat.

(** [check_random_state]: the process-wide generator for [None], a fresh
    generator for an integer seed. *)
Definition check_random_state (global : RandomState)
           (random_state : option Z) : RandomState :=
  match random_state with
  | None => global
  | Some seed => seeded seed
  end.

(** [ShuffleSplit._iter_indices], first split: [(ind_train, ind_test)]. *)
Definition shuffle_split (rng : RandomState) (n_samples n_train n_test : nat)
  : list nat * list nat :=
  let perm := permutation rng n_samples in
  let ind_test := firstn n_test perm in
  let ind_train := firstn n_train (skipn n_test perm) in
  (ind_train, ind_test).

(** The index sets [train_test_split] draws. *)
Definition split_indices (global : RandomState) (n_samples : nat)
           (test_size : Q) (random_state : option Z)
  : exc (list nat * list nat) :=
  '(n_train, n_test) <- validate_shuffle_split n_samples test_size ;;
  Return (shuffle_split (check_random_state global random_state)
                        n_samples n_train n_test).

(** [train_test_split(x, y, test_size=..., random_state=...)]:
    [(x_train, x_test, y_train, y_test)]. *)
Definition train_test_split {A B : Type} (global : RandomState)
           (x : list A) (y : list B) (test_size : Q)
           (random_state : option Z)
  : exc (list A * list A * list B * list B) :=
  if negb (length x =? length y)%nat then Raise ValueError
  else
    '(train, test) <- split_indices global (length x) test_size
                                    random_state ;;
    x_train <- safe_indexing x train ;;
    x_test <- safe_indexing x test ;;
    y_train <- safe_indexing y train ;;
    y_test <- safe_indexing y test ;;
    Return (x_train, x_test, y_train, y_test).

End Split.

End Sklearn.

(* ------------------------------------------------------------------ *)
(** * The script after the cleaning stage                              *)
(* ------------------------------------------------------------------ *)

Local Open Scope Q_scope.

(** [df_clean[['rating', 'latitude', 'longitude']]] as an array. *)
Definition numeric_columns (df : table) : matrix :=
  map (fun r => [rating r; latitude r; longitude r]) df.

(** [df_clean[['rating', 'latitude', 'longitude']] = X], row by row. *)
Definition assign_numeric (df : table) (X : matrix) : table :=
  map (fun '(r, sample) =>
         set_longitude (nth 2 sample None)
           (set_latitude (nth 1 sample None)
              (set_rating (nth 0 sample None) r)))
      (combine df X).

(** Lines 116-117, the scaling stage: the fitted scaler and the table with
    the three columns replaced. *)
Definition normalize (df_clean : table) : exc (Sklearn.MinMaxScaler * table) :=
  '(scaler, X) <- Sklearn.fit_transform (numeric_columns df_clean) ;;
  Return (scaler, assign_numeric df_clean X).

(** Line 140: [scaler.transform([[0, 20.5, 0]])[0][1]]. *)
Definition long_norm (scaler : Sklearn.MinMaxScaler) : exc (option Q) :=
  X <- Sklearn.transform scaler [[Some 0; Some 20.5; Some 0]] ;;
  Return (nth 1 (nth 0 X []) None).

(** What a run leaves behind: the split, the fitted model, the printed
    prediction and the printed error. *)
Record report : Type := mkReport {
  x_train : list (option Q);
  x_test : list (option Q);
  y_train : list (option Q);
  y_test : list (option Q);
  model : Sklearn.LinearRegression;
  result : Q;
  mse : Q
}.

Section Script.

Variable RandomState : Type.
Variable seeded : Z -> RandomState.
Variable permutation : RandomState -> nat -> list nat.

(** Lines 132-158 on the scaled table.  [random_state] is the argument of
    line 134, [global] the state of numpy's process-wide generator when
    the script starts. *)
Definition regression (random_state : option Z) (global : RandomState)
           (scaler : Sklearn.MinMaxScaler) (df_clean : table) : exc report :=
  let x := column longitude df_clean in
  let y := column rating df_clean in
  '(x_train, x_test, y_train, y_test) <-
     Sklearn.train_test_split RandomState seeded permutation global x y
                              0.2 random_state ;;
  model <- Sklearn.fit_linear x_train y_train ;;
  long_norm <- long_norm scaler ;;
  result <- Sklearn.predict model [long_norm] ;;
  _ <- Sklearn.predict model x ;;                      (* line 148 *)
  y_pred <- Sklearn.predict model x_test ;;
  mse <- Sklearn.mean_squared_error y_test y_pred ;;
  Return (mkReport x_train x_test y_train y_test model (nth 0 result 0) mse).

(** The library calls of lines 117-158 on the table that reaches line 116
    (the two scatter plots in between are left out). *)
Definition after_cleaning (random_state : option Z) (global : RandomState)
           (df_clean : table) : exc report :=
  '(scaler, df_scaled) <- normalize df_clean ;;
  regression random_state global scaler df_scaled.

(** The script from the loaded table on, with the seed of line 134 left
    open.  The exception of line 40 on a column without a string is kept
    apart, in [cleaning_stage] below. *)
Definition run (random_state : option Z) (global : RandomState) (df : table)
  : exc report :=
  let df_clean := clean df in
  '(scaler, df_clean) <- normalize df_clean ;;
  regression random_state global scaler df_clean.

(** The script as written: [random_state = 42]. *)
Definition main (global : RandomState) (df : table) : exc report :=
  run (Some 42%Z) global df.

End Script.

(* ------------------------------------------------------------------ *)
(** * Predicates of the specification                                  *)
(* ------------------------------------------------------------------ *)

(** A string cell is tidy when it is missing, or holds a string without
    white space at its ends whose letters are in title case. *)
Definition tidy (v : option string) : Prop :=
  forall s, v = Some s -> PyStr.trimmed s = true /\ PyStr.titlecased s = true.

(** The five columns of [str_cols]. *)
Definition str_cols : list (row -> option string) :=
  [inout_travelling; operator; network_type; calldrop_category; state_name].

(** ** Character classes of the specification

    Python's [string.ascii_uppercase] and [string.ascii_lowercase], and the
    codes below 128 that [str.isspace] accepts, written out on their own. *)
Definition ascii_uppercase : string := "ABCDEFGHIJKLMNOPQRSTUVWXYZ".
Definition ascii_lowercase : string := "abcdefghijklmnopqrstuvwxyz".
Definition whitespace_codes : list nat := [9; 10; 11; 12; 13; 28; 29; 30; 31; 32]%nat.

Definition char_in (c : ascii) (s : string) : bool :=
  existsb (Ascii.eqb c) (list_ascii_of_string s).

Definition is_whitespace (c : ascii) : bool :=
  existsb (Nat.eqb (nat_of_ascii c)) whitespace_codes.

Definition is_upper_letter (c : ascii) : bool := char_in c ascii_uppercase.
Definition is_lower_letter (c : ascii) : bool := char_in c ascii_lowercase.
Definition is_letter (c : ascii) : bool := is_upper_letter c || is_lower_letter c.

(** Every character of the string is below code 128. *)
Definition is_ascii (s : string) : bool :=
  forallb (fun c => (nat_of_ascii c <? 128)%nat) (list_ascii_of_string s).

Definition first_is_whitespace (s : string) : bool :=
  match s with
  | EmptyString => false
  | String c _ => is_whitespace c
  end.

Fixpoint last_is_whitespace (s : string) : bool :=
  match s with
  | EmptyString => false
  | String c EmptyString => is_whitespace c
  | String _ s' => last_is_whitespace s'
  end.

(** No white space at the start and none at the end. *)
Definition ends_free_of_whitespace (s : string) : bool :=
  negb (first_is_whitespace s) && negb (last_is_whitespace s).

(** [s.istitle()] on ASCII, as CPython runs it: an upper-case letter may
    only follow a character that is no letter, a lower-case letter only a
    letter, and the string must hold a letter. *)
Fixpoint istitle_from (previous_is_cased cased : bool) (s : string) : bool :=
  match s with
  | EmptyString => cased
  | String c s' =>
      if is_upper_letter c then
        if previous_is_cased then false else istitle_from true true s'
      else if is_lower_letter c then
        if previous_is_cased then istitle_from true true s' else false
      else istitle_from false cased s'
  end.

Definition str_istitle (s : string) : bool := istitle_from false false s.

Definition has_letter (s : string) : bool :=
  existsb is_letter (list_ascii_of_string s).

(** Every string of the five columns of a raw table is ASCII. *)
Definition ascii_strings (df : table) : Prop :=
  forall r col s,
    In r df -> In col str_cols -> col r = Some s -> is_ascii s = true.

(** The cleaned strings as the specification words them: no white space at
    the ends, and title-cased as [str.istitle] tests it. *)
Definition strings_trimmed_and_titled (df : table) : Prop :=
  forall r col s,
    In r (clean df) -> In col str_cols -> col r = Some s ->
    ends_free_of_whitespace s = true /\ str_istitle s = true.

(** ** The fill value, written with the list functions of the library *)

(** The present values of a raw column, in row order. *)
Definition present_values (f : row -> option Q) (df : table) : list Q :=
  flat_map (fun r => match f r with Some q => [q] | None => [] end) df.

Definition without_sentinel (vs : list Q) : list Q :=
  filter (fun q => negb (Qeq_bool q (-1))) vs.

(** Sum over count; nothing for no value. *)
Definition arithmetic_mean (vs : list Q) : option Q :=
  match vs with
  | [] => None
  | _ :: _ => Some (fold_right Qplus 0 vs / inject_Z (Z.of_nat (length vs)))
  end.

(** A coordinate cell is usable: present and not the sentinel. *)
Definition coordinate_ok (v : option Q) : Prop :=
  exists q, v = Some q /\ ~ q == Pandas.sentinel.

(** What is expected of a row after cleaning. *)
Definition cleaned_row_ok (r : row) : Prop :=
  coordinate_ok (latitude r) /\ coordinate_ok (longitude r) /\
  state_name r <> None.

(** The values of a raw column that are neither missing nor the sentinel. *)
Definition measured (col : list (option Q)) : list Q :=
  filter (fun v => negb (Qeq_bool v Pandas.sentinel)) (Pandas.dropna col).

(** ** Min-max scaling, column by column *)

(** The entries of [scale_] and [min_] for a column, and the image of one
    cell, as [MinMaxScaler.fit] and [transform] compute them. *)
Definition scale_of (col : list (option Q)) : option Q :=
  Sklearn.nan2 Qdiv (Some (1 - 0))
    (Sklearn.handle_zeros_in_scale
       (Sklearn.nan2 Qminus (Sklearn.nanmax col) (Sklearn.nanmin col))).

Definition min_of (col : list (option Q)) : option Q :=
  Sklearn.nan2 Qminus (Some 0)
    (Sklearn.nan2 Qmult (Sklearn.nanmin col) (scale_of col)).

Definition scale_cell (col : list (option Q)) (v : option Q) : option Q :=
  Sklearn.nan2 Qplus (Sklearn.nan2 Qmult v (scale_of col)) (min_of col).

Definition scale_row (df : table) (r : row) : row :=
  set_longitude (scale_cell (column longitude df) (longitude r))
    (set_latitude (scale_cell (column latitude df) (latitude r))
       (set_rating (scale_cell (column rating df) (rating r)) r)).

(** A column with two present values that differ. *)
Definition nonconstant (col : list (option Q)) : Prop :=
  exists a b, In (Some a) col /\ In (Some b) col /\ ~ a == b.

Definition in_unit_range (col : list (option Q)) : Prop :=
  forall v, In (Some v) col -> 0 <= v <= 1.

Definition attains (x : Q) (col : list (option Q)) : Prop :=
  exists v, In (Some v) col /\ v == x.

(** Within [0, 1], with both ends reached. *)
Definition unit_scaled (col : list (option Q)) : Prop :=
  in_unit_range col /\ attains 0 col /\ attains 1 col.

(** Nothing below 0, and 0 reached. *)
Definition scaled_from_zero (col : list (option Q)) : Prop :=
  (forall v, In (Some v) col -> 0 <= v) /\ attains 0 col.

(** The three columns the scaler is fitted on, in the order of line 117. *)
Definition scaled_cols : list (row -> option Q) := [rating; latitude; longitude].

(** ** Sample tables *)

Definition survey_row (l : nat) (rat lat lon : Q) (st : option string) : row :=
  mkRow l (Some rat) (Some lat) (Some lon) st
        (Some "airtel"%string) (Some "4g"%string)
        (Some "call dropped"%string) (Some "indoor"%string)
        (Num 6) (Num 2018).

(** Three located answers; the latitudes that are not the sentinel, -3 and
    1, average to the sentinel. *)
Definition survey_mean_is_sentinel : table :=
  [ survey_row 0 4 (-3) 77.5 (Some "Delhi"%string);
    survey_row 1 5 1 77.6 (Some "Goa"%string);
    survey_row 2 3 (-1.0) 77.7 (Some "Kerala"%string) ].

(** No answer carries a latitude. *)
Definition survey_no_latitude : table :=
  [ survey_row 0 4 (-1.0) 77.5 (Some "Delhi"%string);
    survey_row 1 5 (-1.0) 77.6 (Some "Goa"%string) ].

(** Two tables that differ in the latitude of an answer without a state. *)
Definition survey_unnamed_south : table :=
  [ survey_row 0 4 (-1.0) 77.5 (Some "Delhi"%string);
    survey_row 1 5 12 77.6 (Some "Goa"%string);
    survey_row 2 3 8 77.7 None ].

Definition survey_unnamed_north : table :=
  [ survey_row 0 4 (-1.0) 77.5 (Some "Delhi"%string);
    survey_row 1 5 12 77.6 (Some "Goa"%string);
    survey_row 2 3 30 77.7 None ].

(** Two answers whose numeric columns all differ; the second has no state. *)
Definition survey_one_named : table :=
  [ survey_row 0 3 10 70 (Some "Delhi"%string);
    survey_row 1 5 20 80 None ].

(** Two located answers: latitudes 10 and 30, longitudes 70 and 90. *)
Definition survey_two_points : table :=
  [ survey_row 0 3 10 70 (Some "Kerala"%string);
    survey_row 1 5 30 90 (Some "Assam"%string) ].

(** The scaled table has its three numeric columns within [0, 1], each
    reaching both ends, for a raw table [df] with three columns that are
    not constant. *)
Definition scaled_to_unit_when_raw_varies (df : table) : Prop :=
  nonconstant (column rating df) ->
  nonconstant (column latitude df) ->
  nonconstant (column longitude df) ->
  exists scaler df_scaled,
    normalize (clean df) = Return (scaler, df_scaled) /\
    forall col, In col scaled_cols -> unit_scaled (column col df_scaled).

(** The first row of [survey_two_points] as the cleaning stage leaves it. *)
Definition kerala_cleaned : row :=
  mkRow 0 (Some 3) (Some 10) (Some 70) (Some "Kerala"%string)
        (Some "Airtel"%string) (Some "4G"%string)
        (Some "Call Dropped"%string) (Some "Indoor"%string)
        (Num 6) (Num 2018).

(** The second row of [survey_two_points] as the cleaning stage leaves it. *)
Definition assam_cleaned : row :=
  mkRow 1 (Some 5) (Some 30) (Some 90) (Some "Assam"%string)
        (Some "Airtel"%string) (Some "4G"%string)
        (Some "Call Dropped"%string) (Some "Indoor"%string)
        (Num 6) (Num 2018).

(** Four answers: one latitude is the sentinel, one is missing, one
    longitude is the sentinel. *)
Definition survey_gaps : table :=
  [ survey_row 0 4 (-1.0) 77.5 (Some "Delhi"%string);
    survey_row 1 5 10 77.6 (Some "Goa"%string);
    survey_row 2 3 20 (-1.0) (Some "Kerala"%string);
    set_latitude None (survey_row 3 2 0 77.7 (Some "Assam"%string)) ].

(** One answer whose [inout_travelling] cell holds a blank. *)
Definition survey_blank_cell : table :=
  [ mkRow 0 (Some 4) (Some 10) (Some 70) (Some "Delhi"%string)
          (Some "airtel"%string) (Some "4g"%string)
          (Some "call dropped"%string) (Some " "%string)
          (Num 6) (Num 2018) ].

(** ** A stand-in generator for worked examples

    Its state is a number; an even state draws the identity permutation,
    an odd one the reversal. *)
Definition parity_seeded (seed : Z) : nat := Z.to_nat seed.

Definition parity_permutation (rng : nat) (n : nat) : list nat :=
  if Nat.even rng then seq 0 n else rev (seq 0 n).

(** Seven located answers. *)
Definition survey_week : table :=
  [ survey_row 0 1 8 72 (Some "Kerala"%string);
    survey_row 1 2 11 75 (Some "Goa"%string);
    survey_row 2 5 13 77 (Some "Delhi"%string);
    survey_row 3 4 19 73 (Some "Assam"%string);
    survey_row 4 3 23 88 (Some "Bihar"%string);
    survey_row 5 5 26 91 (Some "Sikkim"%string);
    survey_row 6 2 28 77 (Some "Punjab"%string) ].

(* ------------------------------------------------------------------ *)
(** * Further lines of the script                                      *)
(* ------------------------------------------------------------------ *)

(** ** Lines 33 and 43: [df_clean.isnull().sum()] *)

Definition isnull {A : Type} (v : option A) : bool :=
  match v with None => true | Some _ => false end.

Definition cell_isnull (c : cell) : bool :=
  match c with Missing => true | _ => false end.

(** The sum of a column of booleans. *)
Definition count_true (col : list bool) : nat := length (filter (fun b => b) col).

(** The printed series: one count of missing cells per column. *)
Record null_counts : Type := mkNullCounts {
  null_rating : nat;
  null_latitude : nat;
  null_longitude : nat;
  null_state_name : nat;
  null_operator : nat;
  null_network_type : nat;
  null_calldrop_category : nat;
  null_inout_travelling : nat;
  null_month : nat;
  null_year : nat
}.

Definition isnull_sum (df : table) : null_counts :=
  mkNullCounts
    (count_true (map isnull (column rating df)))
    (count_true (map isnull (column latitude df)))
    (count_true (map isnull (column longitude df)))
    (count_true (map isnull (column state_name df)))
    (count_true (map isnull (column operator df)))
    (count_true (map isnull (column network_type df)))
    (count_true (map isnull (column calldrop_category df)))
    (count_true (map isnull (column inout_travelling df)))
    (count_true (map cell_isnull (column month df)))
    (count_true (map cell_isnull (column year df))).

(** What line 33 prints: the counts on the table of line 31. *)
Definition missing_before_cleaning (df : table) : null_counts :=
  isnull_sum (Pandas.replace_sentinel df).

(** What line 43 prints. *)
Definition missing_after_cleaning (df : table) : null_counts :=
  isnull_sum (clean df).

(** ** Lines 87-88: the rows of the eight named states *)

Definition main_states : list string :=
  ["Delhi"; "Maharashtra"; "Karnataka"; "Tamil Nadu"; "West Bengal";
   "Uttar Pradesh"; "Gujarat"; "Rajasthan"]%string.

(** [Series.isin(values)]: NaN is in no list of strings. *)
Definition isin (values : list string) (v : option string) : bool :=
  match v with
  | Some s => existsb (String.eqb s) values
  | None => false
  end.

Definition df_states (df_clean : table) : table :=
  filter (fun r => isin main_states (state_name r)) df_clean.

(** ** Notions used to state further properties *)

(** [s.lower()] on ASCII, to compare strings up to the case of letters. *)
Fixpoint str_lower (s : string) : string :=
  match s with
  | EmptyString => EmptyString
  | String c s' => String (PyStr.lower c) (str_lower s')
  end.

Definition has_state (r : row) : bool := Pandas.notna (state_name r).

(** A raw cell that is a measurement: present and not the sentinel. *)
Definition is_measured (v : option Q) : bool :=
  match v with
  | Some q => negb (Qeq_bool q Pandas.sentinel)
  | None => false
  end.

(** The residual of a fitted line at a point [(x, y)]. *)
Definition residual (m : Sklearn.LinearRegression) (p : Q * Q) : Q :=
  snd p - (fst p * Sklearn.coef_ m + Sklearn.intercept_ m).

(** The sum of squared residuals over a list of points. *)
Definition squared_error (m : Sklearn.LinearRegression) (pts : list (Q * Q)) : Q :=
  Pandas.Qsum (map (fun p => residual m p * residual m p) pts).

(** The line [LinearRegression.fit] computes from training values without
    NaN. *)
Definition least_squares (xs ys : list Q) : Sklearn.LinearRegression :=
  let X_offset := Sklearn.Qmean xs in
  let y_offset := Sklearn.Qmean ys in
  let sxx := Pandas.Qsum (map (fun x => (x - X_offset) * (x - X_offset)) xs) in
  let sxy :=
    Pandas.Qsum (map (fun '(x, v) => (x - X_offset) * (v - y_offset))
                     (combine xs ys)) in
  let coef := if Qeq_bool sxx 0 then 0 else sxy / sxx in
  Sklearn.mkModel coef (y_offset - X_offset * coef).

(** The tables on which the calls of lines 117-158 all return. *)
Definition regressable (t : table) : Prop :=
  (2 <= length t)%nat /\
  Forall (fun v => v <> None) (column rating t) /\
  (exists q, In (Some q) (column latitude t)) /\
  Forall (fun v => v <> None) (column longitude t).

(** ** Line 40 as pandas runs it

    [read_excel] gives a column without any string the dtype float64 (all
    NaN), and the [.str] accessor of such a column raises AttributeError; a
    sheet without rows has object columns, which [.str] accepts. *)
Definition holds_no_string (col : row -> option string) (df : table) : bool :=
  match df with
  | [] => false
  | _ :: _ => forallb (fun r => isnull (col r)) df
  end.

(** Lines 30-40 with that exception. *)
Definition cleaning_stage (df : table) : exc table :=
  if existsb (fun col => holds_no_string col df) str_cols
  then Raise AttributeError
  else Return (clean df).

(** ** The split as the specification words it *)

(** A fifth of the rows in the test part, four fifths in the training
    part. *)
Definition split_80_20 {A B : Type} (n : nat)
           (split : list A * list A * list B * list B) : Prop :=
  let '(x_train, x_test, _, _) := split in
  (5 * length x_test = n)%nat /\ (5 * length x_train = 4 * n)%nat.

(** One answer, without a state name. *)
Definition survey_unnamed : table := [ survey_row 0 3 10 70 None ].

(** Raw spellings of state names, one answer without coordinates. *)
Definition survey_raw_spelling : table :=
  [ survey_row 0 3 (-1.0) 77.5 (Some " delhi "%string);
    survey_row 1 5 12.9 77.6 (Some "KARNATAKA"%string);
    survey_row 2 4 11 (-1.0) (Some "  tamil NADU"%string);
    survey_row 3 2 15 74 (Some "goa"%string);
    survey_row 4 1 9 76 None ].

(* ------------------------------------------------------------------ *)
(** * The scaler's arithmetic in binary64                              *)
(* ------------------------------------------------------------------ *)

(** [scale_], [min_] and [transform] of [MinMaxScaler] for one column with
    minimum [lo] and maximum [hi], with the operations of float64. *)
Module Binary64.

Import PrimFloat.
Local Open Scope float_scope.

Definition eps : float := 0x1p-52.

Definition handle_zeros_in_scale (r : float) : float :=
  if r <? 10 * eps then 1 else r.

Definition scale_ (lo hi : float) : float :=
  (1 - 0) / handle_zeros_in_scale (hi - lo).

Definition min_ (lo hi : float) : float := 0 - lo * scale_ lo hi.

Definition transform (lo hi x : float) : float :=
  x * scale_ lo hi + min_ lo hi.

Definition zero : float := 0.
Definition one : float := 1.

(** The scaled ends of a column with the values 1 and 6, and of a column
    with the values 2 and 5. *)
Definition maximum_of_1_6 : float := transform 1 6 6.
Definition minimum_of_1_6 : float := transform 1 6 1.
Definition maximum_of_2_5 : float := transform 2 5 5.
Definition minimum_of_2_5 : float := transform 2 5 2.

End Binary64.

(* ------------------------------------------------------------------ *)
(** * Facts about [strip] and [title]                                  *)
(* ------------------------------------------------------------------ *)

Module PyStrFacts.

Import PyStr.

Ltac by_cases_on_char c :=
  destruct c as [[] [] [] [] [] [] [] []]; reflexivity.

Lemma isspace_upper c : isspace (upper c) = isspace c.
Proof. by_cases_on_char c. Qed.

Lemma isspace_lower c : isspace (lower c) = isspace c.
Proof. by_cases_on_char c. Qed.

Lemma iscased_upper c : iscased (upper c) = iscased c.
Proof. by_cases_on_char c. Qed.

Lemma iscased_lower c : iscased (lower c) = iscased c.
Proof. by_cases_on_char c. Qed.

Lemma islower_upper c : islower (upper c) = false.
Proof. by_cases_on_char c. Qed.

Lemma isupper_lower c : isupper (lower c) = false.
Proof. by_cases_on_char c. Qed.

Lemma upper_idem c : upper (upper c) = upper c.
Proof. by_cases_on_char c. Qed.

Lemma lower_idem c : lower (lower c) = lower c.
Proof. by_cases_on_char c. Qed.

(** *** [strip] *)

Lemma lstrip_first s : is_space_opt (first_char (lstrip s)) = false.
Proof.
  induction s as [|c s IH]; simpl; [reflexivity|].
  destruct (isspace c) eqn:E; [exact IH|]. simpl. exact E.
Qed.

Lemma rstrip_last s : is_space_opt (last_char (rstrip s)) = false.
Proof.
  induction s as [|c s IH]; simpl; [reflexivity|].
  destruct (rstrip s) as [|d r] eqn:R.
  - destruct (isspace c) eqn:E; simpl; [reflexivity|exact E].
  - exact IH.
Qed.

Lemma rstrip_first s :
  is_space_opt (first_char s) = false ->
  is_space_opt (first_char (rstrip s)) = false.
Proof.
  destruct s as [|c s]; simpl; [reflexivity|]. intros E.
  destruct (rstrip s); [rewrite E|]; simpl; exact E.
Qed.

Lemma strip_trimmed s : trimmed (strip s) = true.
Proof.
  unfold trimmed, strip.
  rewrite rstrip_last, (rstrip_first _ (lstrip_first s)). reflexivity.
Qed.

(** *** [title] keeps the ends free of white space *)

Lemma title_from_first b s :
  is_space_opt (first_char (title_from b s)) = is_space_opt (first_char s).
Proof.
  destruct s as [|c s]; simpl; [reflexivity|].
  destruct b; [apply isspace_lower | apply isspace_upper].
Qed.

Lemma title_from_last b s :
  is_space_opt (last_char (title_from b s)) = is_space_opt (last_char s).
Proof.
  revert b. induction s as [|c s IH]; intros b; [reflexivity|].
  destruct s as [|d s'].
  - simpl. destruct b; [apply isspace_lower | apply isspace_upper].
  - change (title_from b (String c (String d s')))
      with (String (if b then lower c else upper c)
                   (title_from (iscased c) (String d s'))).
    specialize (IH (iscased c)).
    change (title_from (iscased c) (String d s'))
      with (String (if iscased c then lower d else upper d)
                   (title_from (iscased d) s')) in *.
    exact IH.
Qed.

Lemma title_trimmed s : trimmed s = true -> trimmed (title s) = true.
Proof.
  unfold trimmed, title. now rewrite title_from_first, title_from_last.
Qed.

(** *** The result of [title] is in title case *)

Lemma title_from_titlecased b s : titlecased_from b (title_from b s) = true.
Proof.
  revert b. induction s as [|c s IH]; intros b; [reflexivity|].
  simpl. destruct b.
  - rewrite isupper_lower, iscased_lower. apply IH.
  - rewrite islower_upper, iscased_upper. apply IH.
Qed.

Lemma title_titlecased s : titlecased (title s) = true.
Proof. apply title_from_titlecased. Qed.

(** [title] changes nothing in a string it produced. *)
Lemma title_from_idem b s : title_from b (title_from b s) = title_from b s.
Proof.
  revert b. induction s as [|c s IH]; intros b; [reflexivity|].
  simpl. destruct b.
  - now rewrite lower_idem, iscased_lower, IH.
  - now rewrite upper_idem, iscased_upper, IH.
Qed.

Lemma strip_title_tidy s :
  trimmed (title (strip s)) = true /\ titlecased (title (strip s)) = true.
Proof.
  split; [apply title_trimmed, strip_trimmed | apply title_titlecased].
Qed.

End PyStrFacts.

Example strip_title_delhi :
  PyStr.title (PyStr.strip " delhi ") = "Delhi"%string.
Proof. reflexivity. Qed.

Example title_two_words :
  PyStr.title (PyStr.strip "  tamil   nADU ") = "Tamil   Nadu"%string.
Proof. reflexivity. Qed.

Example title_apostrophe : PyStr.title "they're 3g" = "They'Re 3G"%string.
Proof. reflexivity. Qed.

Example istitle_needs_a_letter :
  PyStr.titlecased "4" = true /\ PyStr.istitle "4" = false.
Proof. split; reflexivity. Qed.

(* ------------------------------------------------------------------ *)
(** * The cleaning stage                                               *)
(* ------------------------------------------------------------------ *)

Lemma str_strip_title_tidy v : tidy (Pandas.str_strip_title v).
Proof.
  intros s H. destruct v as [s0|]; simpl in H; [|discriminate].
  injection H as <-. apply PyStrFacts.strip_title_tidy.
Qed.

(** A row of the cleaned table is [clean_strings] of a row that went
    through lines 31-36. *)
Lemma in_clean df r :
  In r (clean df) ->
  exists r0,
    r = Pandas.clean_strings r0 /\
    Pandas.notna (state_name r0) = true /\
    In r0 (Pandas.fillna
             (Pandas.mean (column latitude (Pandas.replace_sentinel df)))
             (Pandas.mean (column longitude (Pandas.replace_sentinel df)))
             (Pandas.replace_sentinel df)).
Proof.
  unfold clean. intros H. apply in_map_iff in H as (r0 & <- & H).
  apply filter_In in H as [H1 H2]. now exists r0.
Qed.

(** ** The character classes of the specification and those of the code *)

Lemma is_whitespace_isspace c : is_whitespace c = PyStr.isspace c.
Proof. PyStrFacts.by_cases_on_char c. Qed.

Lemma is_upper_letter_isupper c : is_upper_letter c = PyStr.isupper c.
Proof. PyStrFacts.by_cases_on_char c. Qed.

Lemma is_lower_letter_islower c : is_lower_letter c = PyStr.islower c.
Proof. PyStrFacts.by_cases_on_char c. Qed.

Lemma upper_not_lower c : PyStr.isupper c = true -> PyStr.islower c = false.
Proof. destruct c as [[] [] [] [] [] [] [] []]; vm_compute; congruence. Qed.

Lemma ascii_upper c :
  (nat_of_ascii (PyStr.upper c) <? 128)%nat = (nat_of_ascii c <? 128)%nat.
Proof. PyStrFacts.by_cases_on_char c. Qed.

Lemma ascii_lower c :
  (nat_of_ascii (PyStr.lower c) <? 128)%nat = (nat_of_ascii c <? 128)%nat.
Proof. PyStrFacts.by_cases_on_char c. Qed.

Lemma is_ascii_cons c s :
  is_ascii (String c s) = (nat_of_ascii c <? 128)%nat && is_ascii s.
Proof. reflexivity. Qed.

Lemma last_is_whitespace_last_char s :
  last_is_whitespace s = PyStr.is_space_opt (PyStr.last_char s).
Proof.
  induction s as [|c s IH]; [reflexivity|].
  destruct s as [|d s']; [apply is_whitespace_isspace|exact IH].
Qed.

Lemma ends_free_trimmed s : ends_free_of_whitespace s = PyStr.trimmed s.
Proof.
  unfold ends_free_of_whitespace, PyStr.trimmed.
  rewrite last_is_whitespace_last_char. f_equal.
  destruct s as [|c s]; [reflexivity|]. simpl. f_equal.
  apply is_whitespace_isspace.
Qed.

Lemma has_letter_has_cased s : has_letter s = PyStr.has_cased s.
Proof.
  induction s as [|c s IH]; [reflexivity|].
  change (has_letter (String c s)) with (is_letter c || has_letter s).
  simpl. rewrite IH. unfold is_letter, PyStr.iscased.
  now rewrite is_upper_letter_isupper, is_lower_letter_islower.
Qed.

(** [str.istitle] is the title-case test of the code together with the
    presence of a letter. *)
Lemma istitle_from_titlecased p c s :
  istitle_from p c s
  = PyStr.titlecased_from p s && (c || PyStr.has_cased s).
Proof.
  revert p c. induction s as [|a s IH]; intros p c.
  - simpl. now destruct c.
  - cbn [istitle_from PyStr.titlecased_from PyStr.has_cased].
    rewrite is_upper_letter_isupper, is_lower_letter_islower.
    unfold PyStr.iscased.
    destruct (PyStr.isupper a) eqn:U.
    + rewrite (upper_not_lower a U).
      destruct p; [reflexivity|]. rewrite IH. cbn.
      now destruct c, (PyStr.titlecased_from true s).
    + destruct (PyStr.islower a) eqn:L.
      * destruct p; [|reflexivity]. rewrite IH. cbn.
        now destruct c, (PyStr.titlecased_from true s).
      * rewrite IH. cbn.
        now destruct p, c, (PyStr.titlecased_from false s),
          (PyStr.has_cased s).
Qed.

Lemma str_istitle_titlecased s :
  PyStr.titlecased s = true -> str_istitle s = has_letter s.
Proof.
  intros H. unfold str_istitle. rewrite istitle_from_titlecased.
  fold (PyStr.titlecased s). rewrite H. simpl. symmetry.
  apply has_letter_has_cased.
Qed.

(** [strip] and [title] keep an ASCII string ASCII. *)
Lemma is_ascii_lstrip s : is_ascii s = true -> is_ascii (PyStr.lstrip s) = true.
Proof.
  induction s as [|c s IH]; [reflexivity|]. intros H. simpl.
  destruct (PyStr.isspace c); [|exact H].
  rewrite is_ascii_cons in H. apply andb_true_iff in H as [_ H]. now apply IH.
Qed.

Lemma is_ascii_rstrip s : is_ascii s = true -> is_ascii (PyStr.rstrip s) = true.
Proof.
  induction s as [|c s IH]; [reflexivity|]. intros H.
  rewrite is_ascii_cons in H. apply andb_true_iff in H as [Hc H].
  specialize (IH H). simpl. destruct (PyStr.rstrip s) as [|d r].
  - destruct (PyStr.isspace c); [reflexivity|].
    rewrite is_ascii_cons, Hc. reflexivity.
  - rewrite is_ascii_cons, Hc. exact IH.
Qed.

Lemma is_ascii_title_from b s :
  is_ascii s = true -> is_ascii (PyStr.title_from b s) = true.
Proof.
  revert b. induction s as [|c s IH]; intros b H; [reflexivity|].
  rewrite is_ascii_cons in H. apply andb_true_iff in H as [Hc H].
  simpl. rewrite is_ascii_cons, (IH _ H).
  destruct b; [rewrite ascii_lower|rewrite ascii_upper]; now rewrite Hc.
Qed.

Lemma is_ascii_strip_title s :
  is_ascii s = true -> is_ascii (PyStr.title (PyStr.strip s)) = true.
Proof.
  intros H. apply is_ascii_title_from, is_ascii_rstrip, is_ascii_lstrip, H.
Qed.

(** The strings of a cleaned row are those of a raw row, stripped and put
    in title case. *)
Lemma clean_row_strings df r :
  In r (clean df) ->
  exists r0,
    In r0 df /\
    forall col, In col str_cols -> col r = Pandas.str_strip_title (col r0).
Proof.
  intros H. apply in_clean in H as (r1 & -> & _ & H).
  unfold Pandas.fillna, Pandas.replace_sentinel in H. rewrite map_map in H.
  apply in_map_iff in H as (r0 & <- & H). exists r0. split; [exact H|].
  intros col [<-|[<-|[<-|[<-|[<-|[]]]]]]; reflexivity.
Qed.

(** C6, amended: after the cleaning stage, every value of the columns
    operator, network_type, calldrop_category, inout_travelling and
    state_name of a table whose strings are ASCII is ASCII, has no white
    space at its start or end, and passes [str.istitle] exactly when it
    holds a letter. *)
Theorem clean_strings_tidy :
  forall (df : table) (r : row) (col : row -> option string) (s : string),
    ascii_strings df ->
    In r (clean df) -> In col str_cols -> col r = Some s ->
    is_ascii s = true /\
    ends_free_of_whitespace s = true /\
    str_istitle s = has_letter s.
Proof.
  intros df r col s Hascii Hr Hcol Es.
  apply clean_row_strings in Hr as (r0 & Hin & Hs).
  rewrite (Hs col Hcol) in Es.
  destruct (col r0) as [s0|] eqn:E0; [|discriminate Es].
  simpl in Es. injection Es as <-.
  destruct (PyStrFacts.strip_title_tidy s0) as [Ht Hc].
  split; [|split].
  - apply is_ascii_strip_title. exact (Hascii r0 col s0 Hin Hcol E0).
  - now rewrite ends_free_trimmed.
  - now apply str_istitle_titlecased.
Qed.

(** C6 as stated fails: a cell that holds a blank is cleaned to the empty
    string, which [str.istitle] rejects. *)
Lemma clean_strings_tidy_counterexample :
  ~ strings_trimmed_and_titled survey_blank_cell.
Proof.
  intros H.
  destruct (H (hd kerala_cleaned (clean survey_blank_cell)) inout_travelling
              EmptyString) as [_ E].
  - vm_compute. left. reflexivity.
  - simpl. tauto.
  - reflexivity.
  - discriminate E.
Qed.

(** ** Sentinels and means *)

Lemma dropna_replace col :
  Pandas.dropna (map Pandas.replace_cell col) = measured col.
Proof.
  unfold measured.
  induction col as [|[q|] col IH]; simpl; [reflexivity| |exact IH].
  destruct (Qeq_bool q Pandas.sentinel); simpl; now rewrite IH.
Qed.

Lemma latitude_replace_sentinel df :
  column latitude (Pandas.replace_sentinel df)
  = map Pandas.replace_cell (column latitude df).
Proof.
  unfold column, Pandas.replace_sentinel. rewrite !map_map. reflexivity.
Qed.

Lemma longitude_replace_sentinel df :
  column longitude (Pandas.replace_sentinel df)
  = map Pandas.replace_cell (column longitude df).
Proof.
  unfold column, Pandas.replace_sentinel. rewrite !map_map. reflexivity.
Qed.

Lemma mean_latitude_replaced df :
  Pandas.mean (column latitude (Pandas.replace_sentinel df))
  = Pandas.mean_of (measured (column latitude df)).
Proof.
  unfold Pandas.mean. now rewrite latitude_replace_sentinel, dropna_replace.
Qed.

Lemma mean_longitude_replaced df :
  Pandas.mean (column longitude (Pandas.replace_sentinel df))
  = Pandas.mean_of (measured (column longitude df)).
Proof.
  unfold Pandas.mean. now rewrite longitude_replace_sentinel, dropna_replace.
Qed.

Lemma measured_not_sentinel col v : In v (measured col) -> ~ v == Pandas.sentinel.
Proof.
  unfold measured. intros H. apply filter_In in H as [_ H].
  apply negb_true_iff in H. intros E. apply Qeq_bool_iff in E. congruence.
Qed.

Lemma fillna_missing lat lon (df : table) :
  Forall2 (fun r r' =>
             (latitude r = None -> latitude r' = lat) /\
             (longitude r = None -> longitude r' = lon))
          df (Pandas.fillna lat lon df).
Proof.
  induction df as [|r rs IH]; simpl; constructor; [|exact IH].
  split; intros E; simpl; rewrite E; reflexivity.
Qed.

Lemma measured_present_values (f : row -> option Q) df :
  measured (column f df) = without_sentinel (present_values f df).
Proof.
  unfold measured, without_sentinel, present_values, column.
  induction df as [|r df IH]; [reflexivity|].
  simpl. destruct (f r) as [q|]; simpl; [|exact IH].
  now rewrite IH.
Qed.

Lemma replace_cell_missing v :
  Pandas.replace_cell v = None <-> (forall q, v = Some q -> q == -1).
Proof.
  destruct v as [q|]; simpl.
  - destruct (Qeq_bool q Pandas.sentinel) eqn:E.
    + apply Qeq_bool_iff in E. split; [|reflexivity].
      intros _ q' [= <-]. exact E.
    + apply Qeq_bool_neq in E. split; [discriminate|].
      intros H. exfalso. apply E. now apply H.
  - split; [discriminate|reflexivity].
Qed.

Lemma replace_sentinel_missing df :
  Forall2 (fun r0 r =>
             (latitude r = None <-> forall q, latitude r0 = Some q -> q == -1) /\
             (longitude r = None <->
              forall q, longitude r0 = Some q -> q == -1))
          df (Pandas.replace_sentinel df).
Proof.
  unfold Pandas.replace_sentinel.
  induction df as [|r df IH]; simpl; constructor; [|exact IH].
  split; simpl; apply replace_cell_missing.
Qed.

(** C3: a latitude (longitude) cell is missing after line 31 exactly when
    the raw cell is missing or the sentinel; the value that fills those
    cells is the mean of the column as it stands then, before anything is
    filled in; and that mean is the sum over the count of the raw values
    that are neither missing nor the sentinel. *)
Theorem fill_value_is_mean_without_sentinels :
  forall df : table,
    let replaced := Pandas.replace_sentinel df in
    let lat := Pandas.mean (column latitude replaced) in
    let lon := Pandas.mean (column longitude replaced) in
    let filled := Pandas.fillna lat lon replaced in
    clean df
    = map Pandas.clean_strings
          (filter (fun r => Pandas.notna (state_name r)) filled) /\
    Forall2 (fun r0 r =>
               (latitude r = None <->
                forall q, latitude r0 = Some q -> q == -1) /\
               (longitude r = None <->
                forall q, longitude r0 = Some q -> q == -1))
            df replaced /\
    Forall2 (fun r r' =>
               (latitude r = None -> latitude r' = lat) /\
               (longitude r = None -> longitude r' = lon))
            replaced filled /\
    lat = arithmetic_mean (without_sentinel (present_values latitude df)) /\
    lon = arithmetic_mean (without_sentinel (present_values longitude df)) /\
    Forall (fun v => ~ v == -1)
           (without_sentinel (present_values latitude df)
            ++ without_sentinel (present_values longitude df)).
Proof.
  intros df replaced lat lon filled.
  split; [reflexivity|]. split; [apply replace_sentinel_missing|].
  split; [apply fillna_missing|].
  rewrite <- !measured_present_values. split; [|split].
  - apply mean_latitude_replaced.
  - apply mean_longitude_replaced.
  - apply Forall_forall. intros v H.
    apply in_app_or in H as [H|H]; eapply measured_not_sentinel; eassumption.
Qed.

(** ** Rows of the cleaned table *)

(** Every cleaned row stems from a raw row with a state name; its
    coordinates are the raw ones, or the column mean over the whole raw
    table where the raw cell was missing or the sentinel. *)
Lemma clean_row_origin df r :
  In r (clean df) ->
  exists r0,
    In r0 df /\ state_name r0 <> None /\
    label r = label r0 /\
    rating r = rating r0 /\
    state_name r = Pandas.str_strip_title (state_name r0) /\
    latitude r
    = Pandas.fill_cell (Pandas.mean_of (measured (column latitude df)))
                       (Pandas.replace_cell (latitude r0)) /\
    longitude r
    = Pandas.fill_cell (Pandas.mean_of (measured (column longitude df)))
                       (Pandas.replace_cell (longitude r0)).
Proof.
  intros H. apply in_clean in H as (r1 & -> & Hst & H).
  rewrite mean_latitude_replaced, mean_longitude_replaced in H.
  unfold Pandas.fillna, Pandas.replace_sentinel in H. rewrite map_map in H.
  apply in_map_iff in H as (r0 & <- & H). simpl in *.
  exists r0. repeat split; try assumption.
  destruct (state_name r0); [discriminate|discriminate Hst].
Qed.

Lemma fill_replace_ok m v :
  ~ m == Pandas.sentinel ->
  coordinate_ok (Pandas.fill_cell (Some m) (Pandas.replace_cell v)).
Proof.
  intros Hm. destruct v as [q|]; simpl.
  - destruct (Qeq_bool q Pandas.sentinel) eqn:E; simpl.
    + now exists m.
    + exists q. split; [reflexivity|]. now apply Qeq_bool_neq.
  - now exists m.
Qed.

(** C2, amended: every cleaned row has a state name; its latitude
    (longitude) is present and differs from the sentinel whenever the raw
    column holds a value that is neither missing nor the sentinel and the
    mean of those values is not the sentinel. *)
Theorem cleaned_rows_located :
  forall (df : table) (r : row),
    In r (clean df) ->
    state_name r <> None /\
    (forall m, Pandas.mean_of (measured (column latitude df)) = Some m ->
               ~ m == Pandas.sentinel -> coordinate_ok (latitude r)) /\
    (forall m, Pandas.mean_of (measured (column longitude df)) = Some m ->
               ~ m == Pandas.sentinel -> coordinate_ok (longitude r)).
Proof.
  intros df r H.
  apply clean_row_origin in H as (r0 & _ & Hst & _ & _ & Es & Elat & Elon).
  repeat split.
  - rewrite Es. destruct (state_name r0); [discriminate|contradiction].
  - intros m Em Hm. rewrite Elat, Em. now apply fill_replace_ok.
  - intros m Em Hm. rewrite Elon, Em. now apply fill_replace_ok.
Qed.

(** C2 as stated fails: the mean that fills a missing latitude can itself be
    the sentinel. *)
Lemma cleaned_rows_located_counterexample :
  ~ (forall r, In r (clean survey_mean_is_sentinel) -> cleaned_row_ok r).
Proof.
  intros H.
  destruct (H (nth 2 (clean survey_mean_is_sentinel)
                   (survey_row 0 0 0 0 None))) as [(q & E & Hq) _].
  - vm_compute. right. right. left. reflexivity.
  - vm_compute in E. injection E as <-. apply Hq. reflexivity.
Qed.

(** The other way the claim fails: with no latitude measured at all the
    mean is missing and nothing is filled in. *)
Lemma cleaned_rows_unlocated :
  Forall (fun r => latitude r = None) (clean survey_no_latitude) /\
  clean survey_no_latitude <> [].
Proof. split; [repeat constructor | discriminate]. Qed.

(** C4: on the two-row table of the specification, whatever the other
    columns hold, the first cleaned row has latitude 12.9, the mean of the
    latitudes that are not the sentinel, and state name "Delhi". *)
Theorem clean_two_row_scenario :
  forall (l1 l2 : nat) (op1 nt1 cc1 io1 op2 nt2 cc2 io2 : option string)
         (m1 y1 m2 y2 : cell),
    let row1 :=
      mkRow l1 (Some 3) (Some (-1.0)) (Some 77.5) (Some " delhi "%string)
            op1 nt1 cc1 io1 m1 y1 in
    let row2 :=
      mkRow l2 (Some 5) (Some 12.9) (Some 77.6) (Some "Karnataka"%string)
            op2 nt2 cc2 io2 m2 y2 in
    exists r r' v,
      clean [row1; row2] = [r; r'] /\
      latitude r = Some v /\ v == 12.9 /\
      Pandas.mean_of (measured (column latitude [row1; row2])) = Some v /\
      state_name r = Some "Delhi"%string.
Proof.
  intros. eexists. eexists. exists 12.9.
  split; [reflexivity|]. repeat split; reflexivity.
Qed.

(** C9: the fill values are the column means over every row of the raw
    table, the rows that line 36 drops included: a cleaned row that needed
    a latitude (longitude) carries the mean over the whole column, and two
    tables that differ only in the latitude of a dropped row are cleaned to
    different latitudes. *)
Theorem imputation_counts_dropped_rows :
  (forall (df : table) (r : row),
      In r (clean df) ->
      exists r0,
        In r0 df /\ label r = label r0 /\
        latitude r
        = Pandas.fill_cell
            (Pandas.mean (map Pandas.replace_cell (column latitude df)))
            (Pandas.replace_cell (latitude r0)) /\
        longitude r
        = Pandas.fill_cell
            (Pandas.mean (map Pandas.replace_cell (column longitude df)))
            (Pandas.replace_cell (longitude r0))) /\
  (filter (fun r => Pandas.notna (state_name r)) survey_unnamed_south
   = filter (fun r => Pandas.notna (state_name r)) survey_unnamed_north /\
   exists v w,
     column latitude (clean survey_unnamed_south) = [Some v; Some 12] /\
     column latitude (clean survey_unnamed_north) = [Some w; Some 12] /\
     v == 10 /\ w == 21).
Proof.
  split.
  - intros df r H.
    apply clean_row_origin in H as (r0 & Hin & _ & El & _ & _ & Elat & Elon).
    exists r0. unfold Pandas.mean. rewrite !dropna_replace. auto.
  - split; [reflexivity|].
    eexists. eexists. split; [reflexivity|]. split; [reflexivity|].
    split; reflexivity.
Qed.

(* ------------------------------------------------------------------ *)
(** * The scaling stage                                                *)
(* ------------------------------------------------------------------ *)

Lemma feature_rating df :
  Sklearn.feature 0 (numeric_columns df) = column rating df.
Proof. unfold Sklearn.feature, numeric_columns. now rewrite map_map. Qed.

Lemma feature_latitude df :
  Sklearn.feature 1 (numeric_columns df) = column latitude df.
Proof. unfold Sklearn.feature, numeric_columns. now rewrite map_map. Qed.

Lemma feature_longitude df :
  Sklearn.feature 2 (numeric_columns df) = column longitude df.
Proof. unfold Sklearn.feature, numeric_columns. now rewrite map_map. Qed.

(** The scaler fitted on an array of three features. *)
Lemma fit_three (X : matrix) a b c rest :
  X = [a; b; c] :: rest ->
  exists sc,
    Sklearn.fit X = Return sc /\
    Sklearn.scale_ sc
    = [scale_of (Sklearn.feature 0 X); scale_of (Sklearn.feature 1 X);
       scale_of (Sklearn.feature 2 X)] /\
    Sklearn.min_ sc
    = [min_of (Sklearn.feature 0 X); min_of (Sklearn.feature 1 X);
       min_of (Sklearn.feature 2 X)].
Proof. intros ->. eexists. split; [reflexivity|]. split; reflexivity. Qed.

Lemma fit_numeric_columns r df :
  exists sc,
    Sklearn.fit (numeric_columns (r :: df)) = Return sc /\
    Sklearn.scale_ sc
    = [scale_of (column rating (r :: df)); scale_of (column latitude (r :: df));
       scale_of (column longitude (r :: df))] /\
    Sklearn.min_ sc
    = [min_of (column rating (r :: df)); min_of (column latitude (r :: df));
       min_of (column longitude (r :: df))].
Proof.
  destruct (fit_three (numeric_columns (r :: df)) (rating r) (latitude r)
                      (longitude r) (numeric_columns df) eq_refl)
    as (sc & E & Es & Em).
  rewrite feature_rating, feature_latitude, feature_longitude in Es, Em.
  now exists sc.
Qed.

Lemma transform_numeric_columns sc df :
  length (Sklearn.scale_ sc) = 3%nat ->
  Sklearn.transform sc (numeric_columns df)
  = Return (map (Sklearn.transform_sample sc) (numeric_columns df)).
Proof.
  intros E. unfold Sklearn.transform, Sklearn.n_features_in_. rewrite E.
  replace (forallb _ _) with true; [reflexivity|].
  symmetry. apply forallb_forall. intros s H.
  apply in_map_iff in H as (r & <- & _). reflexivity.
Qed.

Lemma assign_transformed sc s0 s1 s2 m0 m1 m2 df :
  Sklearn.scale_ sc = [s0; s1; s2] ->
  Sklearn.min_ sc = [m0; m1; m2] ->
  assign_numeric df (map (Sklearn.transform_sample sc) (numeric_columns df))
  = map (fun r =>
           set_longitude
             (Sklearn.nan2 Qplus (Sklearn.nan2 Qmult (longitude r) s2) m2)
             (set_latitude
                (Sklearn.nan2 Qplus (Sklearn.nan2 Qmult (latitude r) s1) m1)
                (set_rating
                   (Sklearn.nan2 Qplus (Sklearn.nan2 Qmult (rating r) s0) m0)
                   r))) df.
Proof.
  intros Es Em. unfold assign_numeric, numeric_columns.
  induction df as [|r df IH]; [reflexivity|].
  simpl. f_equal; [|exact IH].
  unfold Sklearn.transform_sample. rewrite Es, Em. reflexivity.
Qed.

(** Lines 116-117 on a table with a row: each of the three columns goes
    through its own affine map, everything else stays. *)
Lemma normalize_rows r df :
  exists sc,
    normalize (r :: df) = Return (sc, map (scale_row (r :: df)) (r :: df)) /\
    Sklearn.scale_ sc
    = [scale_of (column rating (r :: df)); scale_of (column latitude (r :: df));
       scale_of (column longitude (r :: df))] /\
    Sklearn.min_ sc
    = [min_of (column rating (r :: df)); min_of (column latitude (r :: df));
       min_of (column longitude (r :: df))].
Proof.
  destruct (fit_numeric_columns r df) as (sc & E & Es & Em).
  exists sc. split; [|now split].
  unfold normalize, Sklearn.fit_transform. rewrite E.
  cbn [bind]. rewrite transform_numeric_columns by now rewrite Es.
  cbn [bind]. now rewrite (assign_transformed _ _ _ _ _ _ _ _ Es Em).
Qed.

Lemma normalize_empty : normalize [] = Raise ValueError.
Proof. reflexivity. Qed.

Lemma normalize_returns df sc df' :
  normalize df = Return (sc, df') -> df' = map (scale_row df) df.
Proof.
  destruct df as [|r df]; [discriminate|].
  destruct (normalize_rows r df) as (sc0 & E & _). rewrite E.
  now intros [= _ <-].
Qed.

(** C10: the scaling stage leaves every column but rating, latitude and
    longitude as it was, row by row: the same rows, in the same order. *)
Theorem normalize_frame :
  forall (df_clean df_scaled : table) (scaler : Sklearn.MinMaxScaler),
    normalize df_clean = Return (scaler, df_scaled) ->
    map other_columns df_scaled = map other_columns df_clean /\
    length df_scaled = length df_clean /\
    forall i r, nth_error df_scaled i = Some r ->
                exists r0, nth_error df_clean i = Some r0 /\
                           other_columns r = other_columns r0.
Proof.
  intros df df' sc H. apply normalize_returns in H. subst df'.
  split; [|split].
  - rewrite map_map. reflexivity.
  - apply length_map.
  - intros i r H. rewrite nth_error_map in H.
    destruct (nth_error df i) as [r0|]; [|discriminate].
    injection H as <-. now exists r0.
Qed.

(** ** Minimum and maximum of a column *)

Lemma in_dropna col v : In v (Pandas.dropna col) <-> In (Some v) col.
Proof.
  induction col as [|[q|] col IH]; simpl.
  - tauto.
  - rewrite IH. split; intros [H|H]; auto; left; congruence.
  - rewrite IH. split; [auto|]. intros [H|H]; [discriminate|auto].
Qed.

Lemma fold_min_in vs v : In (fold_left Qmin vs v) (v :: vs).
Proof.
  revert v. induction vs as [|w vs IH]; intros v; simpl; [auto|].
  destruct (IH (Qmin v w)) as [H|H]; [|auto].
  rewrite <- H. unfold Qmin, GenericMinMax.gmin.
  destruct (v ?= w); auto.
Qed.

Lemma fold_max_in vs v : In (fold_left Qmax vs v) (v :: vs).
Proof.
  revert v. induction vs as [|w vs IH]; intros v; simpl; [auto|].
  destruct (IH (Qmax v w)) as [H|H]; [|auto].
  rewrite <- H. unfold Qmax, GenericMinMax.gmax.
  destruct (v ?= w); auto.
Qed.

Lemma fold_min_le_start vs v : fold_left Qmin vs v <= v.
Proof.
  revert v. induction vs as [|w vs IH]; intros v; simpl; [apply Qle_refl|].
  eapply Qle_trans; [apply IH | apply Q.le_min_l].
Qed.

Lemma fold_min_le vs v x : In x (v :: vs) -> fold_left Qmin vs v <= x.
Proof.
  revert v. induction vs as [|w vs IH]; intros v H.
  - destruct H as [<-|[]]. apply Qle_refl.
  - simpl. destruct H as [<-|[<-|H]].
    + eapply Qle_trans; [apply fold_min_le_start | apply Q.le_min_l].
    + eapply Qle_trans; [apply fold_min_le_start | apply Q.le_min_r].
    + apply IH. now right.
Qed.

Lemma fold_max_ge_start vs v : v <= fold_left Qmax vs v.
Proof.
  revert v. induction vs as [|w vs IH]; intros v; simpl; [apply Qle_refl|].
  eapply Qle_trans; [apply Q.le_max_l | apply IH].
Qed.

Lemma fold_max_ge vs v x : In x (v :: vs) -> x <= fold_left Qmax vs v.
Proof.
  revert v. induction vs as [|w vs IH]; intros v H.
  - destruct H as [<-|[]]. apply Qle_refl.
  - simpl. destruct H as [<-|[<-|H]].
    + eapply Qle_trans; [apply Q.le_max_l | apply fold_max_ge_start].
    + eapply Qle_trans; [apply Q.le_max_r | apply fold_max_ge_start].
    + apply IH. now right.
Qed.

(** A column with a present value has a minimum and a maximum among its
    present values. *)
Lemma nanmin_nanmax col v :
  In (Some v) col ->
  exists lo hi,
    Sklearn.nanmin col = Some lo /\ Sklearn.nanmax col = Some hi /\
    In (Some lo) col /\ In (Some hi) col /\
    forall x, In (Some x) col -> lo <= x <= hi.
Proof.
  intros H. apply in_dropna in H.
  unfold Sklearn.nanmin, Sklearn.nanmax.
  destruct (Pandas.dropna col) as [|w ws] eqn:E; [contradiction|].
  exists (fold_left Qmin ws w), (fold_left Qmax ws w).
  repeat split.
  - apply in_dropna. rewrite E. apply fold_min_in.
  - apply in_dropna. rewrite E. apply fold_max_in.
  - apply fold_min_le. rewrite <- E. now apply in_dropna.
  - apply fold_max_ge. rewrite <- E. now apply in_dropna.
Qed.

(** ** The affine map of a column *)

Lemma ten_eps_positive : 0 < 10 * Sklearn.eps.
Proof. reflexivity. Qed.

(** A column with a present value is mapped by [v |-> (v - lo) / d], with
    [lo] its minimum and [d] its range, or 1 when the range is below ten
    machine epsilons. *)
Lemma scale_cell_affine col v0 :
  In (Some v0) col ->
  exists lo hi d,
    0 < d /\ In (Some lo) col /\ In (Some hi) col /\
    (forall x, In (Some x) col -> lo <= x <= hi) /\
    Sklearn.nanmin col = Some lo /\ Sklearn.nanmax col = Some hi /\
    forall v, exists w, scale_cell col (Some v) = Some w /\ w == (v - lo) / d.
Proof.
  intros H0.
  destruct (nanmin_nanmax col v0 H0) as (lo & hi & Elo & Ehi & Ilo & Ihi & B).
  exists lo, hi,
    (if Qle_bool (10 * Sklearn.eps) (hi - lo) then hi - lo else 1).
  assert (Hd : 0 < (if Qle_bool (10 * Sklearn.eps) (hi - lo)
                    then hi - lo else 1)).
  { destruct (Qle_bool (10 * Sklearn.eps) (hi - lo)) eqn:Z; [|reflexivity].
    apply Qle_bool_iff in Z. pose proof ten_eps_positive as P.
    revert Z P. generalize (10 * Sklearn.eps). intros. lra. }
  split; [exact Hd|].
  repeat split; try assumption; try (now apply B).
  intros v. unfold scale_cell, min_of, scale_of. rewrite Elo, Ehi.
  cbn [Sklearn.nan2 Sklearn.handle_zeros_in_scale].
  revert Hd. destruct (Qle_bool (10 * Sklearn.eps) (hi - lo));
    intros Hd; cbn [Sklearn.nan2]; eexists; (split; [reflexivity|]);
    field; lra.
Qed.

Lemma scale_cell_missing col : scale_cell col None = None.
Proof. reflexivity. Qed.

(** The scaled column starts at 0: the minimum is mapped to 0 and nothing
    lies below. *)
Lemma scale_column_from_zero col v0 :
  In (Some v0) col -> scaled_from_zero (map (scale_cell col) col).
Proof.
  intros H0.
  destruct (scale_cell_affine col v0 H0)
    as (lo & hi & d & Hd & Ilo & _ & B & _ & _ & S).
  split.
  - intros w Hw. apply in_map_iff in Hw as ([v|] & E & Hv); [|discriminate].
    destruct (S v) as (w' & E' & Ew). rewrite E' in E. injection E as ->.
    rewrite Ew. destruct (B v Hv).
    apply Qle_shift_div_l; [exact Hd | lra].
  - destruct (S lo) as (w & E & Ew). exists w. split.
    + rewrite <- E. now apply in_map.
    + rewrite Ew. field. lra.
Qed.

(** A missing rating is not filled in by the cleaning stage and stays
    missing when scaled. *)
Lemma scale_row_missing_rating df r :
  rating r = None -> rating (scale_row df r) = None.
Proof. intros E. simpl. now rewrite E. Qed.

Lemma scaled_columns df :
  column rating (map (scale_row df) df)
  = map (scale_cell (column rating df)) (column rating df) /\
  column latitude (map (scale_row df) df)
  = map (scale_cell (column latitude df)) (column latitude df) /\
  column longitude (map (scale_row df) df)
  = map (scale_cell (column longitude df)) (column longitude df).
Proof. unfold column. rewrite !map_map. repeat split. Qed.

Lemma nonconstant_nonempty (f : row -> option Q) (df : list row) :
  nonconstant (column f df) -> df <> [].
Proof. intros (a & _ & H & _) ->. exact H. Qed.


(** In binary64 the scaled maximum of a column is not exactly 1: it is
    above 1 for the values 1 and 6 and below 1 for the values 2 and 5,
    while the scaled minimum is exactly 0 in both. *)
Lemma scaled_maximum_binary64 :
  PrimFloat.ltb Binary64.one Binary64.maximum_of_1_6 = true /\
  PrimFloat.ltb Binary64.maximum_of_2_5 Binary64.one = true /\
  PrimFloat.eqb Binary64.minimum_of_1_6 Binary64.zero = true /\
  PrimFloat.eqb Binary64.minimum_of_2_5 Binary64.zero = true.
Proof. repeat split; vm_compute; reflexivity. Qed.


(* ------------------------------------------------------------------ *)
(** * The prediction step                                              *)
(* ------------------------------------------------------------------ *)

(** Line 140 reads component 1 of the transformed row, and the scaler was
    fitted on (rating, latitude, longitude): the value 20.5 goes through
    the affine map of the latitude column. *)
Lemma long_norm_scaled r df sc df' :
  normalize (r :: df) = Return (sc, df') ->
  long_norm sc = Return (scale_cell (column latitude (r :: df)) (Some 20.5)).
Proof.
  destruct (normalize_rows r df) as (sc0 & E & Es & Em). rewrite E.
  intros [= <- _].
  unfold long_norm, Sklearn.transform, Sklearn.n_features_in_.
  rewrite Es. cbn [length forallb Nat.eqb andb bind map].
  unfold Sklearn.transform_sample. rewrite Es, Em. reflexivity.
Qed.

(** C1, the code at a table with latitudes 10, 30 and longitudes 70, 90:
    the value handed to the model for raw longitude 20.5 is
    (20.5 - 10) / (30 - 10), scaled with the latitude range, and not the
    normalized longitude (20.5 - 70) / (90 - 70). *)
Theorem long_norm_scaled_as_latitude :
  exists scaler df_scaled v,
    normalize (clean survey_two_points) = Return (scaler, df_scaled) /\
    Sklearn.nanmin (column longitude (clean survey_two_points)) = Some 70 /\
    Sklearn.nanmax (column longitude (clean survey_two_points)) = Some 90 /\
    Sklearn.nanmin (column latitude (clean survey_two_points)) = Some 10 /\
    Sklearn.nanmax (column latitude (clean survey_two_points)) = Some 30 /\
    long_norm scaler = Return (Some v) /\
    v == (20.5 - 10) / (30 - 10) /\
    ~ v == (20.5 - 70) / (90 - 70).
Proof.
  eexists. eexists. eexists.
  split; [vm_compute; reflexivity|].
  do 4 (split; [reflexivity|]).
  split; [vm_compute; reflexivity|].
  split; [reflexivity | discriminate].
Qed.

(* ------------------------------------------------------------------ *)
(** * The train/test split                                             *)
(* ------------------------------------------------------------------ *)

(** [ceil(0.2 * n)] is the least whole number of rows that is a fifth of
    [n] or more. *)
Lemma ceil_fifth (n : nat) :
  let c := Qceiling (0.2 * inject_Z (Z.of_nat n)) in
  (Z.of_nat n <= 5 * c < Z.of_nat n + 5)%Z.
Proof.
  intros c.
  assert (E : c = (- ((- (2 * Z.of_nat n)) / 10))%Z) by reflexivity.
  clearbody c. subst c.
  pose proof (Z.div_mod (- (2 * Z.of_nat n)) 10 ltac:(lia)).
  pose proof (Z.mod_pos_bound (- (2 * Z.of_nat n)) 10 ltac:(lia)).
  lia.
Qed.

Lemma validate_shuffle_split_fifth (n : nat) :
  (2 <= n)%nat ->
  exists n_train n_test,
    Sklearn.validate_shuffle_split n 0.2 = Return (n_train, n_test) /\
    (n_train + n_test = n)%nat /\ (0 < n_train)%nat /\
    (n <= 5 * n_test < n + 5)%nat.
Proof.
  intros Hn. unfold Sklearn.validate_shuffle_split.
  change (Qle_bool 0.2 0 || Qle_bool 1 0.2) with false. cbv iota.
  pose proof (ceil_fifth n) as B. cbv zeta in B.
  set (n_test := Z.to_nat (Qceiling (0.2 * inject_Z (Z.of_nat n)))) in *.
  assert (Bn : (n <= 5 * n_test < n + 5)%nat) by (subst n_test; lia).
  destruct (n - n_test =? 0)%nat eqn:E.
  - apply Nat.eqb_eq in E. lia.
  - apply Nat.eqb_neq in E. exists (n - n_test)%nat, n_test.
    repeat split; lia.
Qed.

Lemma validate_shuffle_split_single :
  Sklearn.validate_shuffle_split 1 0.2 = Raise ValueError.
Proof. reflexivity. Qed.

Lemma safe_indexing_valid {A : Type} (a : list A) (indices : list nat) :
  Forall (fun i => (i < length a)%nat) indices ->
  exists vs,
    Sklearn.safe_indexing a indices = Return vs /\
    Forall2 (fun i v => nth_error a i = Some v) indices vs.
Proof.
  induction 1 as [|i indices Hi _ (vs & E & F)]; simpl.
  - exists []. split; [reflexivity|constructor].
  - destruct (nth_error a i) as [v|] eqn:Ev.
    + rewrite E. exists (v :: vs). split; [reflexivity|]. now constructor.
    + apply nth_error_None in Ev. lia.
Qed.

Section SplitFacts.

Variable RandomState : Type.
Variable seeded : Z -> RandomState.
Variable permutation : RandomState -> nat -> list nat.

(** [rng.permutation(n)] is an arrangement of [0 .. n-1]. *)
Hypothesis permutation_spec :
  forall rng n, Permutation (permutation rng n) (seq 0 n).

Lemma permutation_length rng n : length (permutation rng n) = n.
Proof.
  rewrite (Permutation_length (permutation_spec rng n)). apply length_seq.
Qed.

(** The two index lists cut the drawn permutation in two. *)
Lemma shuffle_split_cut rng n n_train n_test :
  (n_train + n_test = n)%nat ->
  let '(ind_train, ind_test) :=
    Sklearn.shuffle_split RandomState permutation rng n n_train n_test in
  ind_test ++ ind_train = permutation rng n /\
  length ind_test = n_test /\ length ind_train = n_train.
Proof.
  intros E. unfold Sklearn.shuffle_split.
  pose proof (permutation_length rng n) as L.
  assert (T : firstn n_train (skipn n_test (permutation rng n))
              = skipn n_test (permutation rng n)).
  { apply firstn_all2. rewrite length_skipn. lia. }
  rewrite T. split; [apply firstn_skipn|]. split.
  - apply firstn_length_le. lia.
  - rewrite length_skipn. lia.
Qed.

(** C7: line 134 on two columns of the same length (two rows or more).
    The split succeeds; the test part holds a fifth of the rows, rounded
    up to a whole row, and the training part the rest; test and training
    positions together are the permutation drawn from the generator seeded
    with 42, so no row is in both and none is left out; the four results
    are the entries of x and y at those positions. *)
Theorem train_test_split_fifth :
  forall (global : RandomState) (x y : list (option Q)),
    length x = length y ->
    (2 <= length x)%nat ->
    exists ind_train ind_test xtr xte ytr yte,
      Sklearn.split_indices RandomState seeded permutation global (length x)
                            0.2 (Some 42%Z)
      = Return (ind_train, ind_test) /\
      Sklearn.train_test_split RandomState seeded permutation global x y
                               0.2 (Some 42%Z)
      = Return (xtr, xte, ytr, yte) /\
      (length x <= 5 * length ind_test < length x + 5)%nat /\
      (length ind_train + length ind_test = length x)%nat /\
      ind_test ++ ind_train = permutation (seeded 42%Z) (length x) /\
      Permutation (ind_test ++ ind_train) (seq 0 (length x)) /\
      (forall i, In i ind_train -> ~ In i ind_test) /\
      Forall2 (fun i v => nth_error x i = Some v) ind_train xtr /\
      Forall2 (fun i v => nth_error x i = Some v) ind_test xte /\
      Forall2 (fun i v => nth_error y i = Some v) ind_train ytr /\
      Forall2 (fun i v => nth_error y i = Some v) ind_test yte.
Proof.
  intros global x y Hxy Hn.
  destruct (validate_shuffle_split_fifth (length x) Hn)
    as (n_train & n_test & Ev & Esum & Hpos & Hfifth).
  pose proof (shuffle_split_cut (seeded 42%Z) (length x) n_train n_test Esum)
    as Hcut.
  destruct (Sklearn.shuffle_split RandomState permutation (seeded 42%Z)
              (length x) n_train n_test) as [ind_train ind_test] eqn:Es.
  destruct Hcut as (Hperm & Lte & Ltr).
  assert (P : Permutation (ind_test ++ ind_train) (seq 0 (length x)))
    by (rewrite Hperm; apply permutation_spec).
  assert (R : forall i, In i (ind_test ++ ind_train) -> (i < length x)%nat).
  { intros i Hi. apply (Permutation_in _ P) in Hi. apply in_seq in Hi. lia. }
  assert (Rtr : Forall (fun i => (i < length x)%nat) ind_train)
    by (apply Forall_forall; intros i Hi; apply R, in_or_app; now right).
  assert (Rte : Forall (fun i => (i < length x)%nat) ind_test)
    by (apply Forall_forall; intros i Hi; apply R, in_or_app; now left).
  destruct (safe_indexing_valid x ind_train Rtr) as (xtr & Extr & Fxtr).
  destruct (safe_indexing_valid x ind_test Rte) as (xte & Exte & Fxte).
  rewrite Hxy in Rtr, Rte.
  destruct (safe_indexing_valid y ind_train Rtr) as (ytr & Eytr & Fytr).
  destruct (safe_indexing_valid y ind_test Rte) as (yte & Eyte & Fyte).
  assert (Ei : Sklearn.split_indices RandomState seeded permutation global
                 (length x) 0.2 (Some 42%Z) = Return (ind_train, ind_test)).
  { unfold Sklearn.split_indices. rewrite Ev. cbn [bind].
    unfold Sklearn.check_random_state. now rewrite Es. }
  exists ind_train, ind_test, xtr, xte, ytr, yte.
  split; [exact Ei|]. split.
  { unfold Sklearn.train_test_split. rewrite Hxy, Nat.eqb_refl. cbn [negb].
    rewrite <- Hxy, Ei. cbn [bind]. rewrite Extr. cbn [bind].
    rewrite Exte. cbn [bind]. rewrite Eytr. cbn [bind]. rewrite Eyte.
    reflexivity. }
  split; [lia|]. split; [lia|]. split; [exact Hperm|]. split; [exact P|].
  split; [|now repeat split].
  intros i Htr Hte.
  assert (N : NoDup (ind_test ++ ind_train)).
  { apply (Permutation_NoDup (Permutation_sym P)), seq_NoDup. }
  apply in_split in Hte as (l1 & l2 & ->).
  rewrite <- app_assoc in N. apply NoDup_remove_2 in N.
  apply N. apply in_or_app. right. apply in_or_app. now right.
Qed.

End SplitFacts.

(** C7 as stated fails: seven rows are split into 2 for the test and 5 for
    the training, not into a fifth and four fifths. *)
Lemma train_test_split_fifth_counterexample :
  ~ (exists split,
        Sklearn.train_test_split nat parity_seeded parity_permutation 1%nat
          (column longitude survey_week) (column rating survey_week)
          0.2 (Some 42%Z)
        = Return split /\
        split_80_20 (length survey_week) split).
Proof.
  intros (split & E & H). vm_compute in E. injection E as <-.
  destruct H as [H _]. vm_compute in H. discriminate H.
Qed.

(* ------------------------------------------------------------------ *)
(** * The whole run                                                    *)
(* ------------------------------------------------------------------ *)

Lemma bind_return {A B : Type} (c : exc A) (k : A -> exc B) (b : B) :
  bind c k = Return b -> exists a, c = Return a /\ k a = Return b.
Proof. destruct c as [a|e]; simpl; [eauto|discriminate]. Qed.

Section RunFacts.

Variable RandomState : Type.
Variable seeded : Z -> RandomState.
Variable permutation : RandomState -> nat -> list nat.

(** With an integer seed the process-wide generator is not consulted. *)
Lemma check_random_state_seed (global : RandomState) (seed : Z) :
  Sklearn.check_random_state RandomState seeded global (Some seed)
  = seeded seed.
Proof. reflexivity. Qed.

Lemma split_indices_seed (global global' : RandomState) n test_size seed :
  Sklearn.split_indices RandomState seeded permutation global n test_size
                        (Some seed)
  = Sklearn.split_indices RandomState seeded permutation global' n test_size
                          (Some seed).
Proof.
  unfold Sklearn.split_indices. now rewrite !check_random_state_seed.
Qed.

Lemma train_test_split_seed {A B : Type} (global global' : RandomState)
      (x : list A) (y : list B) test_size seed :
  Sklearn.train_test_split RandomState seeded permutation global x y
                           test_size (Some seed)
  = Sklearn.train_test_split RandomState seeded permutation global' x y
                             test_size (Some seed).
Proof.
  unfold Sklearn.train_test_split.
  now rewrite (split_indices_seed global global').
Qed.

(** The printed prediction is the fitted line at the value of line 140. *)
Lemma regression_predicts_long_norm random_state global scaler df rep :
  regression RandomState seeded permutation random_state global scaler df
  = Return rep ->
  exists v,
    long_norm scaler = Return (Some v) /\
    result rep
    = v * Sklearn.coef_ (model rep) + Sklearn.intercept_ (model rep).
Proof.
  unfold regression. intros H.
  apply bind_return in H as ([[[xtr xte] ytr] yte] & _ & H).
  apply bind_return in H as (m & _ & H).
  apply bind_return in H as (ln & Eln & H).
  apply bind_return in H as (res & Eres & H).
  apply bind_return in H as (_ & _ & H).
  apply bind_return in H as (y_pred & _ & H).
  apply bind_return in H as (e & _ & H).
  injection H as <-. simpl.
  destruct ln as [v|]; [|discriminate Eres].
  exists v. split; [exact Eln|].
  simpl in Eres. injection Eres as <-. reflexivity.
Qed.

(** C8: with the seed of line 134, two runs on the same table end alike,
    whatever the state of the process-wide generator at their start: the
    same exception, or the same split, fitted coefficients, prediction for
    20.5 and mean squared error. *)
Theorem main_deterministic :
  forall (global global' : RandomState) (df : table),
    main RandomState seeded permutation global df
    = main RandomState seeded permutation global' df.
Proof.
  intros global global' df. unfold main, run.
  destruct (normalize (clean df)) as [[scaler df_scaled]|e]; [|reflexivity].
  cbn [bind]. unfold regression.
  now rewrite (train_test_split_seed global global').
Qed.

End RunFacts.

(** ** Worked runs with the stand-in generator *)

Lemma parity_permutation_spec rng n :
  Permutation (parity_permutation rng n) (seq 0 n).
Proof.
  unfold parity_permutation. destruct (Nat.even rng).
  - apply Permutation_refl.
  - apply Permutation_sym, Permutation_rev.
Qed.

(** The script runs to its end on seven answers. *)
Example main_survey_week :
  exists rep,
    main nat parity_seeded parity_permutation 1%nat survey_week = Return rep /\
    length (x_test rep) = 2%nat /\ length (x_train rep) = 5%nat.
Proof. vm_compute. eexists. split; [reflexivity|]. split; reflexivity. Qed.

(** Without a seed the split follows the process-wide generator, and two
    runs may differ. *)
Example run_unseeded_differs :
  run nat parity_seeded parity_permutation None 0%nat survey_week
  <> run nat parity_seeded parity_permutation None 1%nat survey_week.
Proof. vm_compute. discriminate. Qed.

(** A single cleaned row cannot be split. *)
Example main_single_row :
  main nat parity_seeded parity_permutation 0%nat survey_one_named
  = Raise ValueError.
Proof. reflexivity. Qed.

(* ------------------------------------------------------------------ *)
(** * The theorems at sample tables                                    *)
(* ------------------------------------------------------------------ *)

Lemma survey_two_points_ascii : ascii_strings survey_two_points.
Proof.
  intros r col s [<-|[<-|[]]] [<-|[<-|[<-|[<-|[<-|[]]]]]] [= <-];
    reflexivity.
Qed.

Lemma clean_strings_tidy_witness :
  ascii_strings survey_two_points /\
  In kerala_cleaned (clean survey_two_points) /\
  In state_name str_cols /\
  state_name kerala_cleaned = Some "Kerala"%string /\
  ends_free_of_whitespace "Kerala" = true /\
  str_istitle "Kerala" = true.
Proof.
  assert (H1 : In kerala_cleaned (clean survey_two_points))
    by (vm_compute; left; reflexivity).
  assert (H2 : In state_name str_cols) by (simpl; tauto).
  split; [exact survey_two_points_ascii|]. split; [exact H1|].
  split; [exact H2|]. split; [reflexivity|].
  destruct (clean_strings_tidy survey_two_points kerala_cleaned state_name
              "Kerala" survey_two_points_ascii H1 H2 eq_refl)
    as (_ & Hw & Ht).
  split; [exact Hw|]. rewrite Ht. reflexivity.
Defined.

Lemma fill_value_is_mean_without_sentinels_witness :
  exists m,
    Pandas.mean (column latitude (Pandas.replace_sentinel survey_gaps))
    = Some m /\
    arithmetic_mean [10; 20] = Some m /\ m == 15 /\
    column latitude (clean survey_gaps) = [Some m; Some 10; Some 20; Some m].
Proof.
  destruct (fill_value_is_mean_without_sentinels survey_gaps)
    as (_ & _ & _ & Elat & _).
  eexists. split; [exact Elat|]. split; [reflexivity|].
  split; reflexivity.
Defined.

Lemma cleaned_rows_located_witness :
  In kerala_cleaned (clean survey_two_points) /\
  cleaned_row_ok kerala_cleaned.
Proof.
  assert (H : In kerala_cleaned (clean survey_two_points))
    by (vm_compute; left; reflexivity).
  split; [exact H|].
  destruct (cleaned_rows_located survey_two_points _ H) as (Hs & Hlat & Hlon).
  split; [|split].
  - eapply Hlat; [vm_compute; reflexivity | discriminate].
  - eapply Hlon; [vm_compute; reflexivity | discriminate].
  - exact Hs.
Defined.

Lemma normalize_frame_witness :
  exists scaler df_scaled,
    normalize (clean survey_two_points) = Return (scaler, df_scaled) /\
    map other_columns df_scaled
    = map other_columns (clean survey_two_points) /\
    length df_scaled = 2%nat.
Proof.
  destruct (normalize (clean survey_two_points)) as [[scaler df_scaled]|e] eqn:E;
    [|discriminate E].
  exists scaler, df_scaled. split; [reflexivity|].
  destruct (normalize_frame _ _ _ E) as (F & L & _).
  split; [exact F | exact L].
Defined.


Lemma train_test_split_fifth_witness :
  (forall rng n, Permutation (parity_permutation rng n) (seq 0 n)) /\
  length (column longitude survey_week) = length (column rating survey_week) /\
  (2 <= length (column longitude survey_week))%nat /\
  exists ind_train ind_test,
    Sklearn.split_indices nat parity_seeded parity_permutation 1%nat 7 0.2
                          (Some 42%Z)
    = Return (ind_train, ind_test) /\
    length ind_test = 2%nat /\ length ind_train = 5%nat /\
    Permutation (ind_test ++ ind_train) (seq 0 7).
Proof.
  assert (H2 : (2 <= length (column longitude survey_week))%nat)
    by (simpl; lia).
  split; [exact parity_permutation_spec|]. split; [reflexivity|].
  split; [exact H2|].
  destruct (train_test_split_fifth nat parity_seeded parity_permutation
              parity_permutation_spec 1%nat (column longitude survey_week)
              (column rating survey_week) eq_refl H2)
    as (ind_train & ind_test & _ & _ & _ & _ & Ei & _ & B & S & _ & P & _).
  exists ind_train, ind_test.
  change (length (column longitude survey_week)) with 7%nat in *.
  repeat split; try assumption; lia.
Defined.

(* ------------------------------------------------------------------ *)
(** * More on the cleaning stage                                       *)
(* ------------------------------------------------------------------ *)

Lemma filter_map_swap {A B : Type} (p : B -> bool) (h : A -> B) (l : list A) :
  filter p (map h l) = map h (filter (fun a => p (h a)) l).
Proof.
  induction l as [|a l IH]; simpl; [reflexivity|].
  destruct (p (h a)); simpl; now rewrite IH.
Qed.

(** The cleaning stage, row by row, over the raw rows that carry a state. *)
Lemma clean_as_map df :
  clean df
  = map (fun r =>
           Pandas.clean_strings
             (set_longitude
                (Pandas.fill_cell
                   (Pandas.mean_of (measured (column longitude df)))
                   (Pandas.replace_cell (longitude r)))
                (set_latitude
                   (Pandas.fill_cell
                      (Pandas.mean_of (measured (column latitude df)))
                      (Pandas.replace_cell (latitude r)))
                   r)))
        (filter has_state df).
Proof.
  unfold clean. rewrite mean_latitude_replaced, mean_longitude_replaced.
  unfold Pandas.fillna, Pandas.replace_sentinel.
  rewrite map_map, filter_map_swap, map_map. reflexivity.
Qed.

Lemma fill_replace_measured m v :
  is_measured v = true -> Pandas.fill_cell m (Pandas.replace_cell v) = v.
Proof.
  destruct v as [q|]; simpl; [|discriminate].
  destruct (Qeq_bool q Pandas.sentinel); [discriminate|reflexivity].
Qed.

(** X1: the cleaned table holds, in their order, the raw rows that carry a
    state name; in each the label, rating, month and year are untouched
    and a measured coordinate is kept as it is. *)
Theorem clean_keeps_measurements :
  forall df : table,
    Forall2 (fun r0 r =>
               label r = label r0 /\ rating r = rating r0 /\
               month r = month r0 /\ year r = year r0 /\
               (is_measured (latitude r0) = true ->
                latitude r = latitude r0) /\
               (is_measured (longitude r0) = true ->
                longitude r = longitude r0))
            (filter has_state df) (clean df) /\
    (length (clean df) <= length df)%nat.
Proof.
  intros df. split.
  - rewrite clean_as_map.
    induction (filter has_state df) as [|r l IH]; simpl; constructor;
      [|exact IH].
    repeat split; simpl; intros H; now apply fill_replace_measured.
  - rewrite clean_as_map, length_map. apply filter_length_le.
Qed.

(** ** Counts as rationals *)

Lemma inject_Z_nat_pos n : (0 < n)%nat -> 0 < inject_Z (Z.of_nat n).
Proof.
  intros H. change 0 with (inject_Z 0). rewrite <- Zlt_Qlt. lia.
Qed.

(** ** The string loop, run again *)

Lemma lstrip_fixed s :
  PyStr.is_space_opt (PyStr.first_char s) = false -> PyStr.lstrip s = s.
Proof. destruct s as [|c s]; simpl; [reflexivity|]. now intros ->. Qed.

Lemma rstrip_fixed s :
  PyStr.is_space_opt (PyStr.last_char s) = false -> PyStr.rstrip s = s.
Proof.
  induction s as [|c s IH]; [reflexivity|].
  destruct s as [|d s'].
  - simpl. now intros ->.
  - intros H. change (PyStr.last_char (String c (String d s')))
      with (PyStr.last_char (String d s')) in H.
    specialize (IH H).
    change (PyStr.rstrip (String c (String d s')))
      with (match PyStr.rstrip (String d s') with
            | EmptyString =>
                if PyStr.isspace c then EmptyString else String c EmptyString
            | r => String c r
            end).
    now rewrite IH.
Qed.

Lemma strip_fixed s : PyStr.trimmed s = true -> PyStr.strip s = s.
Proof.
  unfold PyStr.trimmed, PyStr.strip. intros H.
  apply andb_true_iff in H as [H1 H2].
  apply negb_true_iff in H1, H2.
  now rewrite (lstrip_fixed s H1), (rstrip_fixed s H2).
Qed.

Lemma str_strip_title_idem v :
  Pandas.str_strip_title (Pandas.str_strip_title v) = Pandas.str_strip_title v.
Proof.
  destruct v as [s|]; [|reflexivity]. simpl. f_equal.
  rewrite strip_fixed
    by (apply PyStrFacts.title_trimmed, PyStrFacts.strip_trimmed).
  apply PyStrFacts.title_from_idem.
Qed.

(** X3: on a table whose strings are ASCII, running the loop of lines
    39-40 a second time changes nothing in the cleaned table. *)
Theorem clean_strings_idempotent :
  forall df : table,
    ascii_strings df -> map Pandas.clean_strings (clean df) = clean df.
Proof.
  intros df _. unfold clean. rewrite map_map. apply map_ext. intros r.
  unfold Pandas.clean_strings. simpl. now rewrite !str_strip_title_idem.
Qed.

(** ** The rows of the named states *)

Lemma upper_lower c : PyStr.upper (PyStr.lower c) = PyStr.upper c.
Proof. PyStrFacts.by_cases_on_char c. Qed.

Lemma lower_upper c : PyStr.lower (PyStr.upper c) = PyStr.lower c.
Proof. PyStrFacts.by_cases_on_char c. Qed.

Lemma isspace_lower_char c : PyStr.isspace (PyStr.lower c) = PyStr.isspace c.
Proof. PyStrFacts.by_cases_on_char c. Qed.

(** [title] does not look at the case of the letters it is given. *)
Lemma title_from_str_lower b s :
  PyStr.title_from b (str_lower s) = PyStr.title_from b s.
Proof.
  revert b. induction s as [|c s IH]; intros b; [reflexivity|].
  simpl. rewrite PyStrFacts.iscased_lower, IH.
  destruct b; [now rewrite PyStrFacts.lower_idem | now rewrite upper_lower].
Qed.

Lemma title_caseless s s' :
  str_lower s = str_lower s' -> PyStr.title s = PyStr.title s'.
Proof.
  intros E. unfold PyStr.title.
  now rewrite <- (title_from_str_lower false s), E, title_from_str_lower.
Qed.

(** ... and changes nothing but the case of letters. *)
Lemma str_lower_title_from b s :
  str_lower (PyStr.title_from b s) = str_lower s.
Proof.
  revert b. induction s as [|c s IH]; intros b; [reflexivity|].
  simpl. rewrite IH.
  destruct b; [now rewrite PyStrFacts.lower_idem | now rewrite lower_upper].
Qed.

Lemma main_states_titled m : In m main_states -> PyStr.title m = m.
Proof.
  unfold main_states. simpl.
  intros [<-|[<-|[<-|[<-|[<-|[<-|[<-|[<-|[]]]]]]]]]; reflexivity.
Qed.

Lemma isin_In values v :
  isin values v = true <-> exists s, v = Some s /\ In s values.
Proof.
  destruct v as [s|]; simpl.
  - rewrite existsb_exists. split.
    + intros (m & Hm & E). apply String.eqb_eq in E. subst m. now exists s.
    + intros (s' & [= <-] & H). exists s. split; [exact H|].
      apply String.eqb_refl.
  - split; [discriminate|]. now intros (s & E & _).
Qed.

(** X4: on a table whose strings are ASCII, line 88 selects an answer
    exactly when its raw state name, white space at the ends removed, is
    one of the eight names of [main_states] up to the case of its letters;
    the selected row then carries the name as [main_states] spells it. *)
Theorem df_states_caseless :
  forall (df : table),
    ascii_strings df ->
    (forall r0 s m,
        In r0 df -> state_name r0 = Some s -> In m main_states ->
        str_lower (PyStr.strip s) = str_lower m ->
        exists r, In r (df_states (clean df)) /\ label r = label r0 /\
                  state_name r = Some m) /\
    (forall r,
        In r (df_states (clean df)) ->
        exists r0 s m,
          In r0 df /\ label r = label r0 /\ state_name r0 = Some s /\
          In m main_states /\ state_name r = Some m /\
          str_lower (PyStr.strip s) = str_lower m).
Proof.
  intros df _. split.
  - intros r0 s m Hin Hs Hm E.
    assert (Et : PyStr.title (PyStr.strip s) = m).
    { rewrite (title_caseless _ _ E). now apply main_states_titled. }
    rewrite clean_as_map. eexists. split.
    + apply filter_In. split.
      * apply in_map. apply filter_In. split; [exact Hin|].
        unfold has_state. now rewrite Hs.
      * apply isin_In. exists m. split; [|exact Hm].
        simpl. rewrite Hs. simpl. now rewrite Et.
    + simpl. rewrite Hs. simpl. now rewrite Et.
  - intros r H. apply filter_In in H as [H Hisin].
    apply isin_In in Hisin as (m & Em & Hm).
    apply clean_row_origin in H as (r0 & Hin & Hst & El & _ & Es & _).
    destruct (state_name r0) as [s|] eqn:Hs; [|contradiction].
    exists r0, s, m. repeat split; try assumption.
    rewrite Em in Es. simpl in Es. injection Es as ->.
    unfold PyStr.title. now rewrite str_lower_title_from.
Qed.

(** ** The counts of missing values *)

Lemma count_true_none {A : Type} (f : A -> bool) (l : list A) :
  Forall (fun a => f a = false) l -> count_true (map f l) = 0%nat.
Proof.
  unfold count_true. induction 1 as [|a l Ha _ IH]; simpl; [reflexivity|].
  now rewrite Ha.
Qed.

Lemma count_true_all {A : Type} (f : A -> bool) (l : list A) :
  Forall (fun a => f a = true) l -> count_true (map f l) = length l.
Proof.
  unfold count_true. induction 1 as [|a l Ha _ IH]; simpl; [reflexivity|].
  rewrite Ha. simpl. now rewrite IH.
Qed.

Lemma measured_In col q :
  In (Some q) col -> Qeq_bool q Pandas.sentinel = false -> In q (measured col).
Proof.
  intros H E. unfold measured. apply filter_In. split.
  - now apply in_dropna.
  - now rewrite E.
Qed.

Lemma isnull_replace_cell v :
  isnull (Pandas.replace_cell v) = negb (is_measured v).
Proof.
  destruct v as [q|]; simpl; [|reflexivity].
  now destruct (Qeq_bool q Pandas.sentinel).
Qed.

(** A cleaned coordinate is missing exactly when nothing was measured in
    its column. *)
Lemma refilled_isnull (f : row -> option Q) df r0 :
  In r0 df ->
  isnull (Pandas.fill_cell (Pandas.mean_of (measured (column f df)))
                           (Pandas.replace_cell (f r0)))
  = match measured (column f df) with [] => true | _ :: _ => false end.
Proof.
  intros Hin. destruct (measured (column f df)) as [|v vs] eqn:E.
  - simpl. destruct (f r0) as [q|] eqn:Eq; simpl; [|reflexivity].
    destruct (Qeq_bool q Pandas.sentinel) eqn:Es; [reflexivity|].
    exfalso. assert (H : In q (measured (column f df))).
    { apply measured_In; [|exact Es]. rewrite <- Eq. now apply in_map. }
    now rewrite E in H.
  - simpl. now destruct (Pandas.replace_cell (f r0)).
Qed.

(** X5: the counts printed by lines 33 and 43.  Before cleaning, latitude
    (longitude) counts the raw cells that are missing or the sentinel.
    After cleaning, state_name counts 0; latitude (longitude) counts 0 when
    the raw column holds a measurement, and every cleaned row otherwise. *)
Theorem missing_value_counts :
  forall df : table,
    null_latitude (missing_before_cleaning df)
    = count_true (map (fun v => negb (is_measured v)) (column latitude df)) /\
    null_longitude (missing_before_cleaning df)
    = count_true (map (fun v => negb (is_measured v)) (column longitude df)) /\
    null_state_name (missing_after_cleaning df) = 0%nat /\
    null_latitude (missing_after_cleaning df)
    = match measured (column latitude df) with
      | [] => length (clean df)
      | _ :: _ => 0%nat
      end /\
    null_longitude (missing_after_cleaning df)
    = match measured (column longitude df) with
      | [] => length (clean df)
      | _ :: _ => 0%nat
      end.
Proof.
  intros df. unfold missing_before_cleaning, missing_after_cleaning.
  split; [|split; [|split; [|split]]]; simpl.
  - rewrite latitude_replace_sentinel, map_map.
    f_equal. apply map_ext, isnull_replace_cell.
  - rewrite longitude_replace_sentinel, map_map.
    f_equal. apply map_ext, isnull_replace_cell.
  - unfold column. rewrite map_map. apply count_true_none.
    apply Forall_forall. intros r H.
    apply clean_row_origin in H as (r0 & _ & Hst & _ & _ & Es & _).
    rewrite Es. destruct (state_name r0); [reflexivity|contradiction].
  - unfold column. rewrite map_map.
    destruct (measured (map latitude df)) as [|v vs] eqn:E.
    + rewrite <- (length_map (fun r => isnull (latitude r)) (clean df)).
      unfold count_true.
      f_equal. apply forallb_filter_id. apply forallb_forall.
      intros b Hb. apply in_map_iff in Hb as (r & <- & H).
      apply clean_row_origin in H as (r0 & Hin & _ & _ & _ & _ & El & _).
      rewrite El, (refilled_isnull latitude df r0 Hin).
      unfold column. now rewrite E.
    + apply count_true_none. apply Forall_forall. intros r H.
      apply clean_row_origin in H as (r0 & Hin & _ & _ & _ & _ & El & _).
      rewrite El, (refilled_isnull latitude df r0 Hin).
      unfold column. now rewrite E.
  - unfold column. rewrite map_map.
    destruct (measured (map longitude df)) as [|v vs] eqn:E.
    + rewrite <- (length_map (fun r => isnull (longitude r)) (clean df)).
      unfold count_true.
      f_equal. apply forallb_filter_id. apply forallb_forall.
      intros b Hb. apply in_map_iff in Hb as (r & <- & H).
      apply clean_row_origin in H as (r0 & Hin & _ & _ & _ & _ & _ & El).
      rewrite El, (refilled_isnull longitude df r0 Hin).
      unfold column. now rewrite E.
    + apply count_true_none. apply Forall_forall. intros r H.
      apply clean_row_origin in H as (r0 & Hin & _ & _ & _ & _ & _ & El).
      rewrite El, (refilled_isnull longitude df r0 Hin).
      unfold column. now rewrite E.
Qed.

(* ------------------------------------------------------------------ *)
(** * More on the scaling stage                                        *)
(* ------------------------------------------------------------------ *)

Lemma scale_row_col df r col :
  In col scaled_cols ->
  col (scale_row df r) = scale_cell (column col df) (col r).
Proof. intros [<-|[<-|[<-|[]]]]; reflexivity. Qed.

Lemma Forall2_map_right {A B : Type} (R : A -> B -> Prop) (f : A -> B) l :
  (forall a, In a l -> R a (f a)) -> Forall2 R l (map f l).
Proof.
  induction l as [|a l IH]; intros H; simpl; constructor.
  - apply H. now left.
  - apply IH. intros b Hb. apply H. now right.
Qed.

(** X6: whenever the scaling stage returns, each rating, latitude and
    longitude cell is missing after scaling exactly when it was missing
    before, and no present cell is scaled below 0. *)
Theorem normalize_cells :
  forall (df_clean df_scaled : table) (scaler : Sklearn.MinMaxScaler),
    normalize df_clean = Return (scaler, df_scaled) ->
    Forall2 (fun r r' =>
               forall col, In col scaled_cols ->
                 match col r with
                 | None => col r' = None
                 | Some _ => exists w, col r' = Some w /\ 0 <= w
                 end)
            df_clean df_scaled.
Proof.
  intros df df' sc H. apply normalize_returns in H. subst df'.
  apply Forall2_map_right. intros r Hr col Hcol.
  rewrite (scale_row_col df r col Hcol).
  destruct (col r) as [v|] eqn:E; [|reflexivity].
  assert (Hv : In (Some v) (column col df)).
  { rewrite <- E. unfold column. now apply in_map. }
  destruct (scale_cell_affine _ v Hv)
    as (lo & hi & d & Hd & _ & _ & B & _ & _ & S).
  destruct (S v) as (w & Ew & Eq). exists w. split; [exact Ew|].
  rewrite Eq. destruct (B v Hv).
  apply Qle_shift_div_l; [exact Hd | lra].
Qed.

(** X7: scaling keeps the order of the values of a column: of two rows,
    the one with the smaller rating, latitude or longitude does not get
    the greater scaled value. *)
Theorem normalize_monotone :
  forall (df_clean df_scaled : table) (scaler : Sklearn.MinMaxScaler)
         (col : row -> option Q) (i j : nat) (ri rj : row) (a b : Q),
    normalize df_clean = Return (scaler, df_scaled) ->
    In col scaled_cols ->
    nth_error df_clean i = Some ri -> nth_error df_clean j = Some rj ->
    col ri = Some a -> col rj = Some b -> a <= b ->
    exists ri' rj' a' b',
      nth_error df_scaled i = Some ri' /\ nth_error df_scaled j = Some rj' /\
      col ri' = Some a' /\ col rj' = Some b' /\ a' <= b'.
Proof.
  intros df df' sc col i j ri rj a b H Hcol Hi Hj Ea Eb Hab.
  apply normalize_returns in H. subst df'.
  assert (Ha : In (Some a) (column col df)).
  { rewrite <- Ea. unfold column. apply in_map. eapply nth_error_In; eauto. }
  destruct (scale_cell_affine _ a Ha)
    as (lo & hi & d & Hd & _ & _ & _ & _ & _ & S).
  destruct (S a) as (a' & Ea' & Eqa). destruct (S b) as (b' & Eb' & Eqb).
  exists (scale_row df ri), (scale_row df rj), a', b'.
  split; [now rewrite nth_error_map, Hi|].
  split; [now rewrite nth_error_map, Hj|].
  split; [now rewrite (scale_row_col df ri col Hcol), Ea|].
  split; [now rewrite (scale_row_col df rj col Hcol), Eb|].
  rewrite Eqa, Eqb. unfold Qdiv.
  apply Qmult_le_compat_r; [lra|]. apply Qlt_le_weak, Qinv_lt_0_compat, Hd.
Qed.

(** X8: a column whose present values are all equal is scaled to 0
    throughout. *)
Theorem normalize_constant_column :
  forall (df_clean df_scaled : table) (scaler : Sklearn.MinMaxScaler)
         (col : row -> option Q),
    normalize df_clean = Return (scaler, df_scaled) ->
    In col scaled_cols ->
    (forall a b, In (Some a) (column col df_clean) ->
                 In (Some b) (column col df_clean) -> a == b) ->
    forall w, In (Some w) (column col df_scaled) -> w == 0.
Proof.
  intros df df' sc col H Hcol Hconst w Hw.
  apply normalize_returns in H. subst df'.
  unfold column in Hw. rewrite map_map in Hw.
  apply in_map_iff in Hw as (r & E & Hr).
  rewrite (scale_row_col df r col Hcol) in E.
  destruct (col r) as [v|] eqn:Ev; [|discriminate E].
  assert (Hv : In (Some v) (column col df)).
  { rewrite <- Ev. unfold column. now apply in_map. }
  destruct (scale_cell_affine _ v Hv)
    as (lo & hi & d & Hd & Ilo & _ & _ & _ & _ & S).
  destruct (S v) as (w' & E' & Ew). rewrite E in E'. injection E' as <-.
  pose proof (Hconst _ _ Hv Ilo) as E2.
  rewrite Ew, E2. field. lra.
Qed.

(* ------------------------------------------------------------------ *)
(** * More on the train/test split                                     *)
(* ------------------------------------------------------------------ *)

Lemma validate_shuffle_split_few (n : nat) :
  (n < 2)%nat -> Sklearn.validate_shuffle_split n 0.2 = Raise ValueError.
Proof.
  intros H. destruct n as [|[|n]]; [reflexivity|reflexivity|lia].
Qed.

Lemma nth_error_combine {A B : Type} (x : list A) (y : list B) i a b :
  nth_error x i = Some a -> nth_error y i = Some b ->
  nth_error (combine x y) i = Some (a, b).
Proof.
  revert y i. induction x as [|a0 x IH]; intros y i Ha Hb.
  - destruct i; discriminate.
  - destruct y as [|b0 y]; [destruct i; discriminate|].
    destruct i as [|i]; simpl in *; [congruence|now apply IH].
Qed.

Lemma map_nth_error_seq {A : Type} (l : list A) :
  map (nth_error l) (seq 0 (length l)) = map Some l.
Proof.
  induction l as [|a l IH]; [reflexivity|].
  simpl. f_equal. rewrite <- seq_shift, map_map. exact IH.
Qed.

Lemma indexed_pairs {A B : Type} (x : list A) (y : list B) idx xs ys :
  Forall2 (fun i v => nth_error x i = Some v) idx xs ->
  Forall2 (fun i v => nth_error y i = Some v) idx ys ->
  map Some (combine xs ys) = map (nth_error (combine x y)) idx.
Proof.
  intros Fx. revert ys.
  induction Fx as [|i a idx xs Ha _ IH]; intros ys Fy;
    inversion Fy as [|i' b idx' ys' Hb Fy']; subst; [reflexivity|].
  simpl. rewrite (nth_error_combine x y i a b Ha Hb). f_equal. now apply IH.
Qed.

Lemma map_Some_inj {A : Type} (l l' : list A) :
  map Some l = map Some l' -> l = l'.
Proof.
  revert l'. induction l as [|a l IH]; intros [|a' l'] E;
    try discriminate; [reflexivity|].
  injection E as -> E. f_equal. now apply IH.
Qed.

Lemma Permutation_map_Some {A : Type} (l l' : list A) :
  Permutation (map Some l) (map Some l') -> Permutation l l'.
Proof.
  intros P. apply Permutation_map_inv in P as (l3 & E & P).
  apply map_Some_inj in E. subst l3. now apply Permutation_sym.
Qed.

Section SplitData.

Variable RandomState : Type.
Variable seeded : Z -> RandomState.
Variable permutation : RandomState -> nat -> list nat.

Hypothesis permutation_draws :
  forall rng n, Permutation (permutation rng n) (seq 0 n).

(** The split of two columns of the same length, for any seed or none. *)
Lemma train_test_split_indexed {A B : Type} (global : RandomState)
      (x : list A) (y : list B) (random_state : option Z) :
  length x = length y ->
  (2 <= length x)%nat ->
  exists ind_train ind_test xtr xte ytr yte,
    Sklearn.train_test_split RandomState seeded permutation global x y
                             0.2 random_state
    = Return (xtr, xte, ytr, yte) /\
    Permutation (ind_test ++ ind_train) (seq 0 (length x)) /\
    ind_train <> [] /\ ind_test <> [] /\
    Forall2 (fun i v => nth_error x i = Some v) ind_train xtr /\
    Forall2 (fun i v => nth_error x i = Some v) ind_test xte /\
    Forall2 (fun i v => nth_error y i = Some v) ind_train ytr /\
    Forall2 (fun i v => nth_error y i = Some v) ind_test yte.
Proof.
  intros Hxy Hn.
  destruct (validate_shuffle_split_fifth (length x) Hn)
    as (n_train & n_test & Ev & Esum & Hpos & Hfifth).
  set (rng := Sklearn.check_random_state RandomState seeded global
                                         random_state).
  pose proof (shuffle_split_cut RandomState permutation permutation_draws
                rng (length x) n_train n_test Esum) as Hcut.
  destruct (Sklearn.shuffle_split RandomState permutation rng (length x)
              n_train n_test) as [ind_train ind_test] eqn:Es.
  destruct Hcut as (Hperm & Lte & Ltr).
  assert (P : Permutation (ind_test ++ ind_train) (seq 0 (length x)))
    by (rewrite Hperm; apply permutation_draws).
  assert (R : forall i, In i (ind_test ++ ind_train) -> (i < length x)%nat).
  { intros i Hi. apply (Permutation_in _ P) in Hi. apply in_seq in Hi. lia. }
  assert (Rtr : Forall (fun i => (i < length x)%nat) ind_train)
    by (apply Forall_forall; intros i Hi; apply R, in_or_app; now right).
  assert (Rte : Forall (fun i => (i < length x)%nat) ind_test)
    by (apply Forall_forall; intros i Hi; apply R, in_or_app; now left).
  destruct (safe_indexing_valid x ind_train Rtr) as (xtr & Extr & Fxtr).
  destruct (safe_indexing_valid x ind_test Rte) as (xte & Exte & Fxte).
  rewrite Hxy in Rtr, Rte.
  destruct (safe_indexing_valid y ind_train Rtr) as (ytr & Eytr & Fytr).
  destruct (safe_indexing_valid y ind_test Rte) as (yte & Eyte & Fyte).
  exists ind_train, ind_test, xtr, xte, ytr, yte.
  split.
  { unfold Sklearn.train_test_split. rewrite Hxy, Nat.eqb_refl. cbn [negb].
    rewrite <- Hxy. unfold Sklearn.split_indices. rewrite Ev. cbn [bind].
    fold rng. rewrite Es. cbn [bind]. rewrite Extr. cbn [bind].
    rewrite Exte. cbn [bind]. rewrite Eytr. cbn [bind]. rewrite Eyte.
    reflexivity. }
  split; [exact P|].
  split; [intros ->; simpl in Ltr; lia|].
  split; [intros ->; simpl in Lte; lia|].
  now repeat split.
Qed.

(** With fewer than two rows the split raises ValueError. *)
Lemma train_test_split_few {A B : Type} (global : RandomState)
      (x : list A) (y : list B) (random_state : option Z) :
  (length x < 2)%nat ->
  Sklearn.train_test_split RandomState seeded permutation global x y
                           0.2 random_state
  = Raise ValueError.
Proof.
  intros H. unfold Sklearn.train_test_split.
  destruct (negb (length x =? length y)%nat); [reflexivity|].
  unfold Sklearn.split_indices.
  now rewrite (validate_shuffle_split_few _ H).
Qed.

(** X10: line 134 keeps each longitude with its rating.  For two columns
    of the same length, two rows or more, the split returns; the pairs
    (x, y) of the test part and of the training part are together a
    rearrangement of the pairs of the input, and neither part is empty. *)
Theorem train_test_split_keeps_pairs :
  forall (A B : Type) (global : RandomState) (x : list A) (y : list B)
         (random_state : option Z),
    length x = length y ->
    (2 <= length x)%nat ->
    exists xtr xte ytr yte,
      Sklearn.train_test_split RandomState seeded permutation global x y
                               0.2 random_state
      = Return (xtr, xte, ytr, yte) /\
      Permutation (combine xte yte ++ combine xtr ytr) (combine x y) /\
      length xtr = length ytr /\ length xte = length yte /\
      xtr <> [] /\ xte <> [].
Proof.
  intros A B global x y rs Hxy Hn.
  destruct (train_test_split_indexed global x y rs Hxy Hn)
    as (itr & ite & xtr & xte & ytr & yte & E & P & Ntr & Nte
        & Fxtr & Fxte & Fytr & Fyte).
  exists xtr, xte, ytr, yte. split; [exact E|].
  pose proof (Forall2_length Fxtr) as L1. pose proof (Forall2_length Fytr) as L2.
  pose proof (Forall2_length Fxte) as L3. pose proof (Forall2_length Fyte) as L4.
  split; [|repeat split; try congruence].
  - apply Permutation_map_Some. rewrite map_app.
    rewrite (indexed_pairs x y ite xte yte Fxte Fyte).
    rewrite (indexed_pairs x y itr xtr ytr Fxtr Fytr).
    rewrite <- map_app, <- map_nth_error_seq.
    assert (Lc : length (combine x y) = length x).
    { rewrite length_combine, <- Hxy. apply Nat.min_id. }
    rewrite Lc. now apply Permutation_map.
  - intros ->. destruct itr; [now apply Ntr|]. simpl in L1. discriminate.
  - intros ->. destruct ite; [now apply Nte|]. simpl in L3. discriminate.
Qed.

End SplitData.

(* ------------------------------------------------------------------ *)
(** * The fitted line                                                  *)
(* ------------------------------------------------------------------ *)

(** ** Sums over a list of points *)

Lemma Qsum_cons v vs : Pandas.Qsum (v :: vs) = v + Pandas.Qsum vs.
Proof. reflexivity. Qed.

Lemma Qsum_nonneg {A : Type} (f : A -> Q) (l : list A) :
  (forall a, In a l -> 0 <= f a) -> 0 <= Pandas.Qsum (map f l).
Proof.
  induction l as [|a l IH]; intros H; [apply Qle_refl|].
  cbn [map]. rewrite Qsum_cons.
  assert (H1 : 0 <= f a) by (apply H; now left).
  assert (H2 : 0 <= Pandas.Qsum (map f l))
    by (apply IH; intros b Hb; apply H; now right).
  revert H1 H2. generalize (f a), (Pandas.Qsum (map f l)). intros. lra.
Qed.

Lemma Qsum_ext {A : Type} (f g : A -> Q) (l : list A) :
  (forall a, In a l -> f a == g a) ->
  Pandas.Qsum (map f l) == Pandas.Qsum (map g l).
Proof.
  induction l as [|a l IH]; intros H; [reflexivity|].
  cbn [map]. rewrite !Qsum_cons, IH, (H a); [reflexivity|now left|].
  intros b Hb. apply H. now right.
Qed.

Lemma Qsum_zero {A : Type} (f : A -> Q) (l : list A) :
  (forall a, In a l -> f a == 0) -> Pandas.Qsum (map f l) == 0.
Proof.
  induction l as [|a l IH]; intros H; [reflexivity|].
  cbn [map]. rewrite Qsum_cons, IH, (H a); [reflexivity|now left|].
  intros b Hb. apply H. now right.
Qed.

Lemma Qsquare_nonneg (a : Q) : 0 <= a * a.
Proof. nra. Qed.

(** A sum of squares is 0 only when each term is. *)
Lemma Qsum_squares_zero {A : Type} (f : A -> Q) (l : list A) :
  Pandas.Qsum (map (fun a => f a * f a) l) == 0 ->
  forall a, In a l -> f a == 0.
Proof.
  induction l as [|a0 l IH]; intros H a Ha; [contradiction|].
  cbn [map] in H. rewrite Qsum_cons in H.
  pose proof (Qsquare_nonneg (f a0)) as H1.
  assert (H2 : 0 <= Pandas.Qsum (map (fun a => f a * f a) l))
    by (apply Qsum_nonneg; intros; apply Qsquare_nonneg).
  assert (E1 : f a0 * f a0 == 0).
  { revert H H1 H2.
    generalize (f a0 * f a0), (Pandas.Qsum (map (fun a => f a * f a) l)).
    intros. lra. }
  assert (E2 : Pandas.Qsum (map (fun a => f a * f a) l) == 0).
  { revert H H1 H2.
    generalize (f a0 * f a0), (Pandas.Qsum (map (fun a => f a * f a) l)).
    intros. lra. }
  destruct Ha as [<-|Ha]; [|now apply IH].
  destruct (Qmult_integral _ _ E1); assumption.
Qed.

(** ** [LinearRegression.fit] on values without NaN *)

Lemma assert_all_finite_Some xs :
  Sklearn.assert_all_finite (map Some xs) = Return xs.
Proof. induction xs as [|x xs IH]; simpl; [reflexivity|now rewrite IH]. Qed.

Lemma check_array_Some xs :
  xs <> [] -> Sklearn.check_array (map Some xs) = Return xs.
Proof.
  destruct xs as [|x xs]; [contradiction|]. intros _.
  apply (assert_all_finite_Some (x :: xs)).
Qed.

Lemma check_array_empty : Sklearn.check_array [] = Raise ValueError.
Proof. reflexivity. Qed.

Lemma assert_all_finite_returns col vs :
  Sklearn.assert_all_finite col = Return vs -> col = map Some vs.
Proof.
  revert vs. induction col as [|[v|] col IH]; intros vs H; simpl in H.
  - now injection H as <-.
  - destruct (Sklearn.assert_all_finite col) as [ws|e]; [|discriminate].
    simpl in H. injection H as <-. simpl. f_equal. now apply IH.
  - discriminate.
Qed.

Lemma check_array_returns col vs :
  Sklearn.check_array col = Return vs -> col = map Some vs /\ vs <> [].
Proof.
  destruct col as [|c col]; [discriminate|]. intros H.
  apply assert_all_finite_returns in H. split; [exact H|].
  intros ->. discriminate H.
Qed.

Lemma check_array_raises col e :
  Sklearn.check_array col = Raise e -> e = ValueError.
Proof.
  destruct col as [|c col]; [now intros [= <-]|]. unfold Sklearn.check_array.
  generalize (c :: col). clear. intros col.
  induction col as [|[v|] col IH]; simpl; [discriminate| |now intros [= <-]].
  destruct (Sklearn.assert_all_finite col); simpl; [discriminate|].
  intros [= <-]. now apply IH.
Qed.

Lemma fit_linear_Some xs ys :
  xs <> [] -> length xs = length ys ->
  Sklearn.fit_linear (map Some xs) (map Some ys)
  = Return (least_squares xs ys).
Proof.
  intros Hne Hlen. unfold Sklearn.fit_linear.
  rewrite (check_array_Some xs Hne). cbn [bind].
  rewrite check_array_Some by (intros ->; destruct xs; [auto|discriminate]).
  cbn [bind]. rewrite Hlen, Nat.eqb_refl. reflexivity.
Qed.

Lemma fit_linear_returns X y m :
  Sklearn.fit_linear X y = Return m ->
  exists xs ys,
    X = map Some xs /\ y = map Some ys /\ xs <> [] /\
    length xs = length ys /\ m = least_squares xs ys.
Proof.
  unfold Sklearn.fit_linear. intros H.
  apply bind_return in H as (xs & Ex & H).
  apply bind_return in H as (ys & Ey & H).
  apply check_array_returns in Ex as [-> Hne].
  apply check_array_returns in Ey as [-> _].
  destruct (length xs =? length ys)%nat eqn:E; [|discriminate].
  apply Nat.eqb_eq in E. injection H as <-.
  now exists xs, ys.
Qed.

Lemma fit_linear_raises X y e :
  Sklearn.fit_linear X y = Raise e -> e = ValueError.
Proof.
  unfold Sklearn.fit_linear.
  destruct (Sklearn.check_array X) as [xs|e1] eqn:Ex;
    [|intros [= <-]; now apply check_array_raises in Ex].
  cbn [bind].
  destruct (Sklearn.check_array y) as [ys|e2] eqn:Ey;
    [|intros [= <-]; now apply check_array_raises in Ey].
  cbn [bind]. destruct (negb _); [now intros [= <-]|discriminate].
Qed.

Lemma squared_error_nonneg m pts : 0 <= squared_error m pts.
Proof. apply Qsum_nonneg. intros. apply Qsquare_nonneg. Qed.

Lemma predict_Some m xs :
  xs <> [] ->
  Sklearn.predict m (map Some xs)
  = Return (map (fun x => x * Sklearn.coef_ m + Sklearn.intercept_ m) xs).
Proof.
  intros H. unfold Sklearn.predict. now rewrite (check_array_Some xs H).
Qed.

(** ** The printed error *)

Lemma combine_map_right {A B C : Type} (f : A -> C) (xs : list A)
      (ys : list B) :
  combine ys (map f xs) = map (fun p => (snd p, f (fst p))) (combine xs ys).
Proof.
  revert ys. induction xs as [|x xs IH]; intros [|y ys]; simpl;
    try reflexivity.
  f_equal. apply IH.
Qed.

Lemma predict_raises m X e : Sklearn.predict m X = Raise e -> e = ValueError.
Proof.
  unfold Sklearn.predict.
  destruct (Sklearn.check_array X) eqn:E; [discriminate|].
  intros [= <-]. now apply check_array_raises in E.
Qed.

Lemma predict_returns m X y_pred :
  Sklearn.predict m X = Return y_pred ->
  exists xs, X = map Some xs /\ xs <> [] /\
             y_pred = map (fun x => x * Sklearn.coef_ m + Sklearn.intercept_ m)
                          xs.
Proof.
  unfold Sklearn.predict. intros H. apply bind_return in H as (xs & E & H).
  apply check_array_returns in E as [-> Hne]. injection H as <-.
  now exists xs.
Qed.

Lemma mean_squared_error_raises y_true y_pred e :
  Sklearn.mean_squared_error y_true y_pred = Raise e -> e = ValueError.
Proof.
  unfold Sklearn.mean_squared_error.
  destruct (Sklearn.check_array y_true) eqn:E;
    [|intros [= <-]; now apply check_array_raises in E].
  cbn [bind]. destruct (negb _); [now intros [= <-]|discriminate].
Qed.

(** X15: the error printed by line 159 is the mean of the squared
    residuals of the fitted line over the test pairs; it is never negative,
    and it is 0 exactly when the line passes through every test pair. *)
Theorem mean_squared_error_of_model :
  forall (m : Sklearn.LinearRegression) (xs ys y_pred : list Q) (e : Q),
    Sklearn.predict m (map Some xs) = Return y_pred ->
    Sklearn.mean_squared_error (map Some ys) y_pred = Return e ->
    e == squared_error m (combine xs ys) / inject_Z (Z.of_nat (length ys)) /\
    0 <= e /\
    (e == 0 <-> forall p, In p (combine xs ys) -> residual m p == 0).
Proof.
  intros m xs ys y_pred e Hp He.
  apply predict_returns in Hp as (xs' & Ex & Hne & ->).
  apply map_Some_inj in Ex. subst xs'.
  unfold Sklearn.mean_squared_error in He.
  apply bind_return in He as (ys' & Ey & He).
  apply check_array_returns in Ey as [Ey Hney].
  apply map_Some_inj in Ey. subst ys'.
  destruct (length ys =? _)%nat eqn:El; [|discriminate].
  apply Nat.eqb_eq in El. rewrite length_map in El.
  cbn [negb] in He. injection He as <-.
  assert (Hn : 0 < inject_Z (Z.of_nat (length ys))).
  { apply inject_Z_nat_pos. destruct ys; [contradiction|simpl; lia]. }
  assert (E : Sklearn.Qmean
                (map (fun '(a, b) => (a - b) * (a - b))
                     (combine ys
                        (map (fun x => x * Sklearn.coef_ m
                                       + Sklearn.intercept_ m) xs)))
              == squared_error m (combine xs ys)
                 / inject_Z (Z.of_nat (length ys))).
  { unfold Sklearn.Qmean. rewrite combine_map_right, map_map, !length_map.
    rewrite length_combine, <- El, Nat.min_id.
    unfold squared_error.
    rewrite (Qsum_ext _ (fun p => residual m p * residual m p));
      [reflexivity|].
    intros p _. reflexivity. }
  pose proof (squared_error_nonneg m (combine xs ys)) as Hs.
  split; [exact E|]. rewrite E. split.
  - apply Qle_shift_div_l; [exact Hn|].
    revert Hs. generalize (squared_error m (combine xs ys)). intros. lra.
  - split.
    + intros Z. apply (Qsum_squares_zero (residual m)).
      fold (squared_error m (combine xs ys)).
      assert (Z' : squared_error m (combine xs ys)
                   == 0 * inject_Z (Z.of_nat (length ys))).
      { rewrite <- Z. field. lra. }
      rewrite Z'. ring.
    + intros Z. unfold squared_error.
      rewrite Qsum_zero; [field; lra|].
      intros p Hp. rewrite (Z p Hp). ring.
Qed.

(* ------------------------------------------------------------------ *)
(** * When the calls after cleaning return                             *)
(* ------------------------------------------------------------------ *)

Lemma present_map_Some (col : list (option Q)) :
  Forall (fun v => v <> None) col -> exists vs, col = map Some vs.
Proof.
  induction 1 as [|[v|] col Hv _ (vs & ->)].
  - now exists [].
  - now exists (v :: vs).
  - contradiction.
Qed.

Lemma map_Some_present (vs : list Q) :
  Forall (fun v : option Q => v <> None) (map Some vs).
Proof. apply Forall_forall. intros v H. apply in_map_iff in H as (q & <- & _). discriminate. Qed.

(** A scaled cell is present only for a present cell of a column that
    holds a value. *)
Lemma scale_cell_empty col v : Pandas.dropna col = [] -> scale_cell col v = None.
Proof.
  intros E. unfold scale_cell, min_of, Sklearn.nanmin. rewrite E. simpl.
  now destruct (Sklearn.nan2 Qmult v (scale_of col)).
Qed.

Lemma scale_cell_some col v w :
  scale_cell col v = Some w ->
  (exists q, v = Some q) /\ Pandas.dropna col <> [].
Proof.
  intros H. split.
  - destruct v as [q|]; [now exists q|discriminate].
  - intros E. now rewrite (scale_cell_empty col v E) in H.
Qed.

Lemma scaled_column_present col :
  Forall (fun v => v <> None) col ->
  Forall (fun v => v <> None) (map (scale_cell col) col).
Proof.
  intros H. apply Forall_forall. intros w Hw.
  apply in_map_iff in Hw as (v & <- & Hv).
  destruct v as [q|]; [|now apply (proj1 (Forall_forall _ _) H None Hv)].
  destruct (scale_cell_affine col q Hv)
    as (lo & hi & d & _ & _ & _ & _ & _ & _ & S).
  destruct (S q) as (w & -> & _). discriminate.
Qed.

Lemma present_of_scaled col :
  Forall (fun v => v <> None) (map (scale_cell col) col) ->
  Forall (fun v => v <> None) col.
Proof.
  intros H. apply Forall_forall. intros v Hv ->.
  apply (proj1 (Forall_forall _ _) H (scale_cell col None)); [|reflexivity].
  now apply in_map.
Qed.

Lemma normalize_raises df e : normalize df = Raise e -> e = ValueError.
Proof.
  destruct df as [|r df]; [now intros [= <-]|].
  destruct (normalize_rows r df) as (sc & E & _). rewrite E. discriminate.
Qed.

Lemma long_norm_raises sc e : long_norm sc = Raise e -> e = ValueError.
Proof.
  unfold long_norm, Sklearn.transform.
  destruct (forallb _ _); [discriminate|now intros [= <-]].
Qed.

(** The entries picked at valid positions of a column without NaN. *)
Lemma indexed_present (vs : list Q) idx l :
  Forall2 (fun i v => nth_error (map Some vs) i = Some v) idx l ->
  exists l', l = map Some l' /\ length l' = length idx.
Proof.
  induction 1 as [|i v idx l Hv _ (l' & -> & L)].
  - now exists [].
  - rewrite nth_error_map in Hv.
    destruct (nth_error vs i) as [q|]; [|discriminate].
    injection Hv as <-. exists (q :: l'). split; [reflexivity|].
    simpl. now rewrite L.
Qed.

Lemma indexed_covers (y : list (option Q)) idx (l : list Q) i :
  Forall2 (fun i v => nth_error y i = Some v) idx (map Some l) ->
  In i idx -> exists q, nth_error y i = Some (Some q).
Proof.
  revert l. induction idx as [|j idx IH]; intros l F Hi; [contradiction|].
  destruct l as [|q l]; inversion F as [|? ? ? ? Hj F']; subst.
  destruct Hi as [<-|Hi]; [now exists q|]. now apply (IH l).
Qed.

Section RunConditions.

Variable RandomState : Type.
Variable seeded : Z -> RandomState.
Variable permutation : RandomState -> nat -> list nat.

Hypothesis permutation_draws :
  forall rng n, Permutation (permutation rng n) (seq 0 n).

Lemma train_test_split_raises {A B : Type} (global : RandomState)
      (x : list A) (y : list B) (random_state : option Z) (e : exn) :
  Sklearn.train_test_split RandomState seeded permutation global x y
                           0.2 random_state
  = Raise e ->
  e = ValueError.
Proof.
  intros H. destruct (Nat.eq_dec (length x) (length y)) as [Hxy|Hxy].
  - destruct (le_lt_dec 2 (length x)) as [Hn|Hn].
    + destruct (train_test_split_indexed RandomState seeded permutation
                  permutation_draws global x y random_state Hxy Hn)
        as (? & ? & ? & ? & ? & ? & E & _).
      rewrite E in H. discriminate H.
    + rewrite train_test_split_few in H by exact Hn. now injection H as <-.
  - unfold Sklearn.train_test_split in H. apply Nat.eqb_neq in Hxy.
    rewrite Hxy in H. simpl in H. now injection H as <-.
Qed.

Lemma regression_raises random_state global scaler df e :
  regression RandomState seeded permutation random_state global scaler df
  = Raise e ->
  e = ValueError.
Proof.
  unfold regression. cbv zeta.
  destruct (Sklearn.train_test_split _ _ _ _ _ _ _ _)
    as [[[[xtr xte] ytr] yte]|e1] eqn:Es;
    [|intros [= <-]; now apply train_test_split_raises in Es].
  cbn [bind].
  destruct (Sklearn.fit_linear xtr ytr) as [m|e1] eqn:Ef;
    [|intros [= <-]; now apply fit_linear_raises in Ef].
  cbn [bind].
  destruct (long_norm scaler) as [ln|e1] eqn:El;
    [|intros [= <-]; now apply long_norm_raises in El].
  cbn [bind].
  destruct (Sklearn.predict m [ln]) as [res|e1] eqn:E1;
    [|intros [= <-]; now apply predict_raises in E1].
  cbn [bind].
  destruct (Sklearn.predict m (column longitude df)) as [px|e1] eqn:E2;
    [|intros [= <-]; now apply predict_raises in E2].
  cbn [bind].
  destruct (Sklearn.predict m xte) as [y_pred|e1] eqn:E3;
    [|intros [= <-]; now apply predict_raises in E3].
  cbn [bind].
  destruct (Sklearn.mean_squared_error yte y_pred) as [v|e1] eqn:E4;
    [discriminate|intros [= <-]; now apply mean_squared_error_raises in E4].
Qed.

(** A table with two rows or more, no missing rating or longitude and a
    latitude somewhere goes through the calls of lines 117-158. *)
Lemma regressable_returns random_state global (t : table) :
  regressable t ->
  exists rep,
    after_cleaning RandomState seeded permutation random_state global t
    = Return rep.
Proof.
  intros (Hn & Hrat & (q & Hq) & Hlon). unfold after_cleaning.
  destruct t as [|r rest]; [simpl in Hn; lia|].
  destruct (normalize_rows r rest) as (sc & E & _). rewrite E. cbn [bind].
  pose proof (long_norm_scaled r rest sc _ E) as Eln.
  set (t := r :: rest) in *.
  destruct (scaled_columns t) as (Er & _ & Elon).
  unfold regression. cbv zeta. rewrite Elon, Er.
  destruct (present_map_Some _ (scaled_column_present _ Hlon)) as (xs & Ex).
  destruct (present_map_Some _ (scaled_column_present _ Hrat)) as (ys & Ey).
  rewrite Ex, Ey.
  assert (Lx : length xs = length t).
  { rewrite <- (length_map Some xs), <- Ex. unfold column.
    now rewrite !length_map. }
  assert (Ly : length ys = length t).
  { rewrite <- (length_map Some ys), <- Ey. unfold column.
    now rewrite !length_map. }
  assert (Hxy : length (map Some xs) = length (map Some ys))
    by (rewrite !length_map; congruence).
  assert (Hn2 : (2 <= length (map Some xs))%nat)
    by (rewrite length_map; lia).
  destruct (train_test_split_indexed RandomState seeded permutation
              permutation_draws global (map Some xs) (map Some ys)
              random_state Hxy Hn2)
    as (itr & ite & xtr & xte & ytr & yte & Et & _ & Ntr & Nte
        & Fxtr & Fxte & Fytr & Fyte).
  rewrite Et. cbn [bind].
  destruct (indexed_present xs itr xtr Fxtr) as (xtr' & -> & Lxtr).
  destruct (indexed_present xs ite xte Fxte) as (xte' & -> & Lxte).
  destruct (indexed_present ys itr ytr Fytr) as (ytr' & -> & Lytr).
  destruct (indexed_present ys ite yte Fyte) as (yte' & -> & Lyte).
  assert (Nxtr : xtr' <> []) by (intros ->; destruct itr; [auto|discriminate]).
  assert (Nxte : xte' <> []) by (intros ->; destruct ite; [auto|discriminate]).
  assert (Nyte : yte' <> []) by (intros ->; destruct ite; [auto|discriminate]).
  assert (Nxs : xs <> []) by (intros ->; simpl in Hn2; lia).
  rewrite fit_linear_Some by (auto; congruence). cbn [bind].
  rewrite Eln. cbn [bind].
  destruct (scale_cell_affine _ q Hq)
    as (lo & hi & d & _ & _ & _ & _ & _ & _ & S).
  destruct (S 20.5) as (w & Ew & _). rewrite Ew.
  change [Some w] with (map Some [w]).
  rewrite predict_Some by discriminate. cbn [bind].
  rewrite predict_Some by exact Nxs. cbn [bind].
  rewrite predict_Some by exact Nxte. cbn [bind].
  unfold Sklearn.mean_squared_error.
  rewrite check_array_Some by exact Nyte. cbn [bind].
  rewrite length_map.
  replace (length yte' =? length xte')%nat with true
    by (symmetry; apply Nat.eqb_eq; congruence).
  eexists. reflexivity.
Qed.

(** Conversely, a table on which these calls return is of that kind. *)
Lemma returns_regressable random_state global (t : table) rep :
  after_cleaning RandomState seeded permutation random_state global t
  = Return rep ->
  regressable t.
Proof.
  unfold after_cleaning. intros H.
  apply bind_return in H as ([sc d] & En & H).
  destruct t as [|r rest]; [discriminate En|].
  pose proof (long_norm_scaled r rest sc d En) as Eln.
  apply normalize_returns in En. subst d.
  set (t := r :: rest) in *.
  destruct (scaled_columns t) as (Er & _ & Elon).
  unfold regression in H. cbv zeta in H. rewrite Elon, Er in H.
  set (x := map (scale_cell (column longitude t)) (column longitude t)) in *.
  set (y := map (scale_cell (column rating t)) (column rating t)) in *.
  assert (Lx : length x = length t)
    by (subst x; unfold column; now rewrite !length_map).
  assert (Ly : length y = length t)
    by (subst y; unfold column; now rewrite !length_map).
  apply bind_return in H as ([[[xtr xte] ytr] yte] & Et & H).
  apply bind_return in H as (m & Ef & H).
  apply bind_return in H as (ln & El & H).
  apply bind_return in H as (res & Eres & H).
  apply bind_return in H as (px & Epx & H).
  apply bind_return in H as (y_pred & Eyp & H).
  apply bind_return in H as (e & Ee & _).
  assert (Hn : (2 <= length x)%nat).
  { destruct (le_lt_dec 2 (length x)) as [Hn|Hn]; [exact Hn|].
    rewrite train_test_split_few in Et by exact Hn. discriminate Et. }
  split; [lia|].
  assert (Hxy : length x = length y) by congruence.
  destruct (train_test_split_indexed RandomState seeded permutation
              permutation_draws global x y random_state Hxy Hn)
    as (itr & ite & xtr0 & xte0 & ytr0 & yte0 & Et0 & P & _ & _
        & _ & _ & Fytr & Fyte).
  rewrite Et in Et0. injection Et0 as <- <- <- <-.
  apply fit_linear_returns in Ef as (_ & ytr' & _ & -> & _).
  unfold Sklearn.mean_squared_error in Ee.
  apply bind_return in Ee as (yte' & Ec & _).
  apply check_array_returns in Ec as [-> _].
  split; [|split].
  - apply present_of_scaled. fold y. apply Forall_forall. intros v Hv.
    apply In_nth_error in Hv as (i & Hi).
    assert (Hlt : (i < length y)%nat)
      by (apply nth_error_Some; rewrite Hi; discriminate).
    assert (Hin : In i (ite ++ itr)).
    { apply (Permutation_in _ (Permutation_sym P)). apply in_seq. lia. }
    apply in_app_or in Hin as [Hin|Hin].
    + destruct (indexed_covers y ite yte' i Fyte Hin) as (q & Eq).
      rewrite Hi in Eq. injection Eq as ->. discriminate.
    + destruct (indexed_covers y itr ytr' i Fytr Hin) as (q & Eq).
      rewrite Hi in Eq. injection Eq as ->. discriminate.
  - rewrite Eln in El. injection El as <-.
    apply predict_returns in Eres as ([|v l] & Ev & _); [discriminate Ev|].
    simpl in Ev. injection Ev as Ev _.
    apply scale_cell_some in Ev as [_ Hd].
    destruct (Pandas.dropna (column latitude t)) as [|q l'] eqn:Ed;
      [contradiction|].
    exists q. apply in_dropna. rewrite Ed. now left.
  - apply present_of_scaled. fold x.
    apply predict_returns in Epx as (xs & -> & _). apply map_Some_present.
Qed.

Lemma after_cleaning_raises random_state global t e :
  after_cleaning RandomState seeded permutation random_state global t
  = Raise e ->
  e = ValueError.
Proof.
  unfold after_cleaning.
  destruct (normalize t) as [[scaler df_scaled]|e1] eqn:En;
    [|intros [= <-]; now apply normalize_raises in En].
  cbn [bind]. apply regression_raises.
Qed.

(** X16: plots aside, the library calls of lines 117-158 (fit_transform,
    train_test_split, fit, transform, predict, mean_squared_error) all
    return on the table that reaches line 116 exactly when it has two rows
    or more, no missing rating, no missing longitude and a latitude
    somewhere. *)
Theorem after_cleaning_returns_iff :
  forall (global : RandomState) (t : table),
    (exists rep,
        after_cleaning RandomState seeded permutation (Some 42%Z) global t
        = Return rep)
    <-> regressable t.
Proof.
  intros global t. split.
  - intros (rep & H). now apply returns_regressable in H.
  - apply regressable_returns.
Qed.

(** X17: on every other table the first of these calls that fails raises
    ValueError: none of them raises another exception. *)
Theorem after_cleaning_raises_value_error :
  forall (global : RandomState) (t : table),
    ~ regressable t ->
    after_cleaning RandomState seeded permutation (Some 42%Z) global t
    = Raise ValueError.
Proof.
  intros global t Hno.
  destruct (after_cleaning RandomState seeded permutation (Some 42%Z)
                           global t) as [rep|e] eqn:E.
  - exfalso. apply Hno. now apply returns_regressable in E.
  - f_equal. now apply after_cleaning_raises in E.
Qed.

End RunConditions.

(* ------------------------------------------------------------------ *)
(** * Line 40 on columns without a string                               *)
(* ------------------------------------------------------------------ *)

Lemma holds_no_string_true col r df :
  (forall r', In r' (r :: df) -> col r' = None) ->
  holds_no_string col (r :: df) = true.
Proof.
  intros H. unfold holds_no_string. apply forallb_forall. intros r' Hr'.
  now rewrite (H r' Hr').
Qed.

Lemma cleaning_stage_returns df t :
  cleaning_stage df = Return t ->
  t = clean df /\
  forall col, In col str_cols -> holds_no_string col df = false.
Proof.
  unfold cleaning_stage.
  destruct (existsb _ str_cols) eqn:E; [discriminate|].
  intros [= <-]. split; [reflexivity|]. intros col Hcol.
  destruct (holds_no_string col df) eqn:Hc; [|reflexivity].
  assert (Ex : existsb (fun col => holds_no_string col df) str_cols = true)
    by (apply existsb_exists; now exists col).
  congruence.
Qed.


(* ------------------------------------------------------------------ *)
(** * The further theorems at sample tables                            *)
(* ------------------------------------------------------------------ *)


Lemma clean_strings_idempotent_witness :
  ascii_strings survey_two_points /\
  map Pandas.clean_strings (clean survey_two_points)
  = [kerala_cleaned; assam_cleaned].
Proof.
  split; [exact survey_two_points_ascii|].
  rewrite (clean_strings_idempotent _ survey_two_points_ascii).
  vm_compute. reflexivity.
Defined.

Lemma survey_raw_spelling_ascii : ascii_strings survey_raw_spelling.
Proof.
  intros r col s [<-|[<-|[<-|[<-|[<-|[]]]]]] [<-|[<-|[<-|[<-|[<-|[]]]]]] E;
    try discriminate E; injection E as <-; reflexivity.
Qed.

Lemma df_states_caseless_witness :
  ascii_strings survey_raw_spelling /\
  In "Delhi"%string main_states /\
  str_lower (PyStr.strip " delhi ") = str_lower "Delhi" /\
  exists r, In r (df_states (clean survey_raw_spelling)) /\
            label r = 0%nat /\ state_name r = Some "Delhi"%string.
Proof.
  split; [exact survey_raw_spelling_ascii|].
  assert (Hm : In "Delhi"%string main_states) by (simpl; tauto).
  split; [exact Hm|]. split; [reflexivity|].
  destruct (df_states_caseless _ survey_raw_spelling_ascii) as [H _].
  apply (H (survey_row 0 3 (-1.0) 77.5 (Some " delhi "%string))
           " delhi "%string "Delhi"%string);
    [simpl; tauto | reflexivity | exact Hm | reflexivity].
Defined.

Lemma normalize_cells_witness :
  exists scaler df_scaled,
    normalize (clean survey_two_points) = Return (scaler, df_scaled) /\
    Forall2 (fun r r' =>
               forall col, In col scaled_cols ->
                 match col r with
                 | None => col r' = None
                 | Some _ => exists w, col r' = Some w /\ 0 <= w
                 end)
            (clean survey_two_points) df_scaled.
Proof.
  destruct (normalize (clean survey_two_points)) as [[scaler df_scaled]|e] eqn:E;
    [|discriminate E].
  exists scaler, df_scaled. split; [reflexivity|].
  exact (normalize_cells _ _ _ E).
Defined.

Lemma normalize_monotone_witness :
  exists scaler df_scaled ri' rj' a' b',
    normalize (clean survey_two_points) = Return (scaler, df_scaled) /\
    nth_error (clean survey_two_points) 0 = Some kerala_cleaned /\
    nth_error (clean survey_two_points) 1 = Some assam_cleaned /\
    nth_error df_scaled 0 = Some ri' /\ nth_error df_scaled 1 = Some rj' /\
    latitude ri' = Some a' /\ latitude rj' = Some b' /\ a' <= b'.
Proof.
  destruct (normalize (clean survey_two_points)) as [[scaler df_scaled]|e] eqn:E;
    [|discriminate E].
  assert (H0 : nth_error (clean survey_two_points) 0 = Some kerala_cleaned)
    by (vm_compute; reflexivity).
  assert (H1 : nth_error (clean survey_two_points) 1 = Some assam_cleaned)
    by (vm_compute; reflexivity).
  assert (Hcol : In latitude scaled_cols) by (simpl; tauto).
  assert (Hle : 10 <= 30) by discriminate.
  destruct (normalize_monotone _ _ _ latitude 0 1 kerala_cleaned assam_cleaned
              10 30 E Hcol H0 H1 eq_refl eq_refl Hle)
    as (ri' & rj' & a' & b' & Ei & Ej & Ea & Eb & Hab).
  exists scaler, df_scaled, ri', rj', a', b'.
  repeat split; assumption.
Defined.

Lemma normalize_constant_column_witness :
  exists scaler df_scaled,
    normalize (clean survey_one_named) = Return (scaler, df_scaled) /\
    forall w, In (Some w) (column rating df_scaled) -> w == 0.
Proof.
  destruct (normalize (clean survey_one_named)) as [[scaler df_scaled]|e] eqn:E;
    [|discriminate E].
  exists scaler, df_scaled. split; [reflexivity|].
  apply (normalize_constant_column _ _ _ rating E); [simpl; tauto|].
  intros a b Ha Hb. simpl in Ha, Hb.
  destruct Ha as [Ha|[]]. destruct Hb as [Hb|[]].
  injection Ha as <-. injection Hb as <-. reflexivity.
Defined.

Lemma train_test_split_keeps_pairs_witness :
  (forall rng n, Permutation (parity_permutation rng n) (seq 0 n)) /\
  length (column longitude survey_week) = length (column rating survey_week) /\
  (2 <= length (column longitude survey_week))%nat /\
  exists xtr xte ytr yte,
    Sklearn.train_test_split nat parity_seeded parity_permutation 1%nat
      (column longitude survey_week) (column rating survey_week)
      0.2 (Some 42%Z)
    = Return (xtr, xte, ytr, yte) /\
    Permutation (combine xte yte ++ combine xtr ytr)
                (combine (column longitude survey_week)
                         (column rating survey_week)).
Proof.
  assert (H2 : (2 <= length (column longitude survey_week))%nat)
    by (simpl; lia).
  split; [exact parity_permutation_spec|]. split; [reflexivity|].
  split; [exact H2|].
  destruct (train_test_split_keeps_pairs nat parity_seeded parity_permutation
              parity_permutation_spec _ _ 1%nat
              (column longitude survey_week) (column rating survey_week)
              (Some 42%Z) eq_refl H2)
    as (xtr & xte & ytr & yte & E & P & _).
  now exists xtr, xte, ytr, yte.
Defined.

Lemma mean_squared_error_of_model_witness :
  exists y_pred e,
    Sklearn.predict (Sklearn.mkModel 2 1) (map Some [0; 1]) = Return y_pred /\
    Sklearn.mean_squared_error (map Some [1; 4]) y_pred = Return e /\
    e == 1 # 2 /\ 0 <= e.
Proof.
  destruct (Sklearn.predict (Sklearn.mkModel 2 1) (map Some [0; 1]))
    as [y_pred|x] eqn:Ep; [|discriminate Ep].
  destruct (Sklearn.mean_squared_error (map Some [1; 4]) y_pred)
    as [e|x] eqn:Ee; [|injection Ep as <-; discriminate Ee].
  exists y_pred, e. split; [reflexivity|]. split; [exact Ee|].
  destruct (mean_squared_error_of_model _ _ _ _ _ Ep Ee) as (E & Hpos & _).
  split; [|exact Hpos]. rewrite E. reflexivity.
Defined.

Lemma survey_week_regressable : regressable (clean survey_week).
Proof.
  split; [vm_compute; lia|]. split; [|split].
  - vm_compute. repeat constructor; discriminate.
  - exists 8. vm_compute. left. reflexivity.
  - vm_compute. repeat constructor; discriminate.
Qed.

Lemma after_cleaning_returns_iff_witness :
  (forall rng n, Permutation (parity_permutation rng n) (seq 0 n)) /\
  regressable (clean survey_week) /\
  exists rep,
    after_cleaning nat parity_seeded parity_permutation (Some 42%Z) 1%nat
                   (clean survey_week)
    = Return rep.
Proof.
  split; [exact parity_permutation_spec|].
  split; [exact survey_week_regressable|].
  exact (proj2 (after_cleaning_returns_iff nat parity_seeded
                  parity_permutation parity_permutation_spec 1%nat
                  (clean survey_week))
               survey_week_regressable).
Defined.

Lemma after_cleaning_raises_value_error_witness :
  (forall rng n, Permutation (parity_permutation rng n) (seq 0 n)) /\
  ~ regressable (clean survey_one_named) /\
  after_cleaning nat parity_seeded parity_permutation (Some 42%Z) 1%nat
                 (clean survey_one_named)
  = Raise ValueError.
Proof.
  split; [exact parity_permutation_spec|].
  assert (R : ~ regressable (clean survey_one_named)).
  { intros (H & _). vm_compute in H. lia. }
  split; [exact R|].
  exact (after_cleaning_raises_value_error nat parity_seeded
           parity_permutation parity_permutation_spec 1%nat
           (clean survey_one_named) R).
Defined.
